(** * A blog backend: users, session tokens and posts

    Shallow embedding of the Express application (the route handlers
    registered with [app.get], [app.post], [app.put] and [app.delete], and
    [returnToken]) and of the [Post] model.  The document store, the request
    validator, the password hasher and the token library are the
    application's collaborators: the store is modelled as finite data with
    an oracle for the calls that fail and with the cast of identifier
    strings that the model layer performs, the validators by what the chains
    in the handlers check, and the functions of the hashing, e-mail and
    signing libraries are taken as an interface ([Libs]). *)

From stdpp Require Import base option list gmap strings fin_maps sorting.
From Stdlib Require Import ZArith String Ascii.

Local Open Scope string_scope.
Local Open Scope Z_scope.

(** ** Document identifiers *)

Definition lower (c : ascii) : ascii :=
  let n := nat_of_ascii c in
  if ((65 <=? n) && (n <=? 90))%nat then ascii_of_nat (n + 32) else c.

Fixpoint toLowerCase (s : string) : string :=
  match s with
  | String c s' => String (lower c) (toLowerCase s')
  | EmptyString => EmptyString
  end.

(** A digit of the hexadecimal form of an identifier: [0-9a-f]. *)
Definition is_hex_lower (c : ascii) : bool :=
  let n := nat_of_ascii c in
  (((48 <=? n) && (n <=? 57)) || ((97 <=? n) && (n <=? 102)))%nat.

(** The string form of an identifier ([toString()], [doc.id]): 24
    hexadecimal digits in lower case. *)
Definition canonical_id (s : string) : bool :=
  (String.length s =? 24)%nat && forallb is_hex_lower (list_ascii_of_string s).

(** An identifier of a stored document (an [ObjectId]), kept as its string
    form. *)
Definition ObjectId : Type := { s : string | Is_true (canonical_id s) }.

#[global] Instance ObjectId_eq_dec : EqDecision ObjectId.
Proof. unfold ObjectId. apply _. Defined.

#[global] Instance ObjectId_countable : Countable ObjectId.
Proof. unfold ObjectId. apply _. Defined.

(** [id.toString()] *)
Definition ObjectId_toString (k : ObjectId) : string := proj1_sig k.
Coercion ObjectId_toString : ObjectId >-> string.

Definition hex_digit (n : nat) : ascii :=
  ascii_of_nat (if (n <? 10)%nat then 48 + n else 87 + n).

(** The hexadecimal form of a string of bytes. *)
Fixpoint hex_of_bytes (s : string) : string :=
  match s with
  | String c s' =>
      let n := nat_of_ascii c in
      String (hex_digit (n / 16))
        (String (hex_digit (n mod 16)) (hex_of_bytes s'))
  | EmptyString => EmptyString
  end.

(** The cast of a string to an identifier, as the model layer does it for
    [findById]: a string of 12 characters stands for its bytes, a string of
    24 hexadecimal digits (in either case) for the identifier it spells;
    any other string is not an identifier and the cast fails. *)
Definition normalise_id (s : string) : string :=
  if (String.length s =? 12)%nat then hex_of_bytes s else toLowerCase s.

Definition castObjectId (s : string) : option ObjectId :=
  match decide (Is_true (canonical_id (normalise_id s))) with
  | left ok => Some (exist _ (normalise_id s) ok)
  | right _ => None
  end.

(** ** Data model *)

(** [PostSchema]: the owning user reference, [body], [title] and the [date]
    that defaults to [Date.now] (milliseconds).  [_id] is the document
    identifier that the store gives every document; in the documents,
    identifiers are kept in their string form (what [post.user.toString()]
    and [user.id] yield). *)
Module Post.
Record t : Type := mk {
  _id : string;
  user : string;
  body : string;
  title : string;
  date : Z
}.
End Post.

(** The user documents the handlers read and create: [name], [email] and
    [password] (stored hashed). *)
Module User.
Record t : Type := mk {
  _id : string;
  name : string;
  email : string;
  password : string
}.
End User.

(** The two collections.  Users are searched by field ([findOne] by email),
    so they are kept in insertion order; posts are looked up by identifier,
    and the key of a post is an [ObjectId]. *)
Record Db : Type := mkDb {
  users : list User.t;
  posts : gmap ObjectId Post.t
}.

(** The posts under the string form of an identifier: the string is cast,
    and a string that is no identifier reaches no post.  [m !! id],
    [<[id := p]> m] and [delete id m] with [id] a string are these. *)
#[global] Instance posts_lookup_string
    : Lookup string Post.t (gmap ObjectId Post.t) | 100 :=
  λ id m, match castObjectId id with Some k => m !! k | None => None end.
#[global] Instance posts_insert_string
    : Insert string Post.t (gmap ObjectId Post.t) | 100 :=
  λ id p m, match castObjectId id with Some k => <[k := p]> m | None => m end.
#[global] Instance posts_delete_string
    : Delete string (gmap ObjectId Post.t) | 100 :=
  λ id m, match castObjectId id with Some k => delete k m | None => m end.

(** The payload signed by [returnToken] together with the claims the token
    library adds: issued-at and expiry, in seconds. *)
Record Claims : Type := mkClaims {
  claim_user_id : string;
  iat : Z;
  exp : Z
}.

Record Token : Type := mkToken {
  claims : Claims;
  signature : string
}.

(** ** Library interface *)

(** What the handlers use of validator.js ([isEmail]), bcryptjs ([hash],
    [compare]) and jsonwebtoken (the signature over the claims). *)
Class Libs : Type := {
  isEmail : string → bool;
  bcrypt_hash : string → string → string;
  bcrypt_compare : string → string → bool;
  jwt_signature : string → Claims → string
}.

(** ** Requests and responses *)

(** A value of the JSON body: a string, or a value of another kind
    (number, boolean, [null], array, object) with the text the validators
    see for it ([String(value)]; the empty string for [null]). *)
Inductive JValue : Type :=
  | JStr (s : string)
  | JOther (shown : string).

(** A request as a handler sees it: [req.user.id] (set by the [auth]
    middleware on the authenticated routes), [req.params.id], and the fields
    of the JSON body the handlers destructure; [None] is [undefined].  The
    password, which the login only requires to exist, is any JSON value;
    the other fields are strings. *)
Record Req : Type := mkReq {
  req_user_id : string;
  params_id : string;
  body_name : option string;
  body_email : option string;
  body_password : option JValue;
  body_title : option string;
  body_body : option string
}.

(** An element of an [errors] array: either the bare [{ msg }] object the
    login and registration handlers build, or an entry of
    [validationResult(req).array()]. *)
Inductive ErrObj : Type :=
  | MsgOnly (msg : string)
  | FieldError (value : option JValue) (msg : string) (param : string)
               (location : string).

Inductive ResBody : Type :=
  | Text (s : string)
  | JMsg (msg : string)
  | JErrors (errors : list ErrObj)
  | JToken (token : Token)
  | JPost (post : Post.t)
  | JPosts (posts : list Post.t).

Record Response : Type := mkResponse {
  res_status : nat;
  res_body : ResBody
}.

(** What a request cannot choose: the clock ([Date.now()], milliseconds),
    the identifier a new document gets, the salt of [bcrypt.genSalt(10)]
    and the configured [jwtSecret]. *)
Record Env : Type := mkEnv {
  now : Z;
  freshId : ObjectId;
  salt : string;
  jwtSecret : string
}.

(** ** The handler monad *)

(** A handler runs over the store, the response sent so far (none at the
    start) and an oracle that tells, for each awaited store call in turn,
    whether it rejects ([true]); past the end of the oracle no call
    rejects. *)
Record St : Type := mkSt {
  db : Db;
  sent : option Response;
  faults : list bool
}.

Inductive outcome (A : Type) : Type :=
  | Val (a : A)
  | Exn.
Arguments Val {A} a.
Arguments Exn {A}.

Definition M (A : Type) : Type := St → outcome A * St.

#[global] Instance M_ret : MRet M := λ A a s, (Val a, s).
#[global] Instance M_bind : MBind M := λ A B f m s,
  match m s with
  | (Val a, s') => f a s'
  | (Exn, s') => (Exn, s')
  end.

Definition throw {A : Type} : M A := λ s, (Exn, s).

(** [try { m } catch (error) { h }] *)
Definition try_catch (m h : M unit) : M unit := λ s,
  match m s with
  | (Val a, s') => (Val a, s')
  | (Exn, s') => h s'
  end.

Definition get_db : M Db := λ s, (Val (db s), s).
Definition put_db (d : Db) : M unit := λ s,
  (Val (), mkSt d (sent s) (faults s)).

(** An awaited call to the store consumes one entry of the oracle. *)
Definition storeCall : M unit := λ s,
  match faults s with
  | [] => (Val (), s)
  | b :: fs => (if b : bool then Exn else Val (), mkSt (db s) (sent s) fs)
  end.

(** [res.status(code).json(b)] and [res.status(code).send(text)]: the
    response is recorded; [res.json(b)] alone answers with the default
    status 200. *)
Definition res_status_json (code : nat) (b : ResBody) : M unit := λ s,
  (Val (), mkSt (db s) (Some (mkResponse code b)) (faults s)).
Definition res_json (b : ResBody) : M unit := res_status_json 200 b.
Definition res_status_send (code : nat) (text : string) : M unit :=
  res_status_json code (Text text).

(** ** Store operations *)

Definition date_desc (p q : Post.t) : Prop := Post.date q ≤ Post.date p.

#[global] Instance date_desc_dec p q : Decision (date_desc p q).
Proof. unfold date_desc. apply _. Defined.

(** [Post.find().sort({date: -1})] *)
Definition Post_find_sort (d : Db) : list Post.t :=
  merge_sort date_desc ((map_to_list (posts d)).*2).

Definition Post_find : M (list Post.t) :=
  storeCall ;; d ← get_db; mret (Post_find_sort d).

(** [Post.findById(id)] : the document, or [null].  The string is cast to
    an identifier first, and a string that is no identifier makes the call
    reject before the store is asked. *)
Definition Post_findById (id : string) : M (option Post.t) :=
  match castObjectId id with
  | None => throw
  | Some k => storeCall ;; d ← get_db; mret (posts d !! k)
  end.

(** [post.save()] of a document made with [new Post]: an insert, which the
    store rejects when the identifier is taken.  The document carries its
    identifier in string form; the posts are reached through it. *)
Definition Post_insert (p : Post.t) : M unit :=
  storeCall ;; d ← get_db;
  match posts d !! Post._id p with
  | Some _ => throw
  | None => put_db (mkDb (users d) (<[Post._id p := p]> (posts d)))
  end.

(** [post.save()] of a document that was read from the store. *)
Definition Post_update (p : Post.t) : M unit :=
  storeCall ;; d ← get_db;
  put_db (mkDb (users d) (<[Post._id p := p]> (posts d))).

(** [post.remove()] *)
Definition Post_remove (p : Post.t) : M unit :=
  storeCall ;; d ← get_db;
  put_db (mkDb (users d) (delete (Post._id p) (posts d))).

(** [User.findOne({ email: email })] : the first user document with that
    email; every user document has an email, so an [undefined] one matches
    none. *)
Definition User_findOne_email (e : option string) : M (option User.t) :=
  storeCall ;; d ← get_db;
  mret (match e with
        | Some e => List.find (λ u, String.eqb (User.email u) e) (users d)
        | None => None
        end).

(** [User.findById(id)], for the id of a verified token: the string form of
    a user's identifier. *)
Definition User_findById (id : string) : M (option User.t) :=
  storeCall ;; d ← get_db;
  mret (List.find (λ u, String.eqb (User._id u) id) (users d)).

(** [user.save()] of a document made with [new User]. *)
Definition User_insert (u : User.t) : M unit :=
  storeCall ;; d ← get_db;
  match List.find (λ v, String.eqb (User._id v) (User._id u)) (users d) with
  | Some _ => throw
  | None => put_db (mkDb (users d ++ [u]) (posts d))
  end.

(** ** Request validation (express-validator chains) *)

(** The validators work on the string form of a field; a missing field is
    the empty string. *)
Definition toString (v : option string) : string := default "" v.

Definition shown_of (v : JValue) : string :=
  match v with JStr s => s | JOther shown => shown end.

Definition toString_json (v : option JValue) : string :=
  match v with Some v => shown_of v | None => "" end.

(** [.isEmail()] *)
Definition chain_isEmail `{Libs} (v : option string) : bool :=
  isEmail (toString v).
(** [.exists()] : the field is not [undefined]. *)
Definition chain_exists (v : option JValue) : bool :=
  match v with Some _ => true | None => false end.
(** [.not().isEmpty()] *)
Definition chain_notEmpty (v : option string) : bool :=
  negb (String.eqb (toString v) "").
(** [.isLength({min: n})] *)
Definition chain_isLength_min (n : nat) (v : option JValue) : bool :=
  (n <=? String.length (toString_json v))%nat.

(** [check(param, msg)] followed by a chain: no error when the chain
    accepts the field, one error object otherwise.  [json] gives the field
    as the JSON value the error object carries. *)
Definition check {V : Type} (json : V → JValue) (param msg : string)
    (chain : option V → bool) (v : option V) : list ErrObj :=
  if chain v then [] else [FieldError (json <$> v) msg param "body"].

(** [errors.isEmpty()] *)
Definition isEmpty (errors : list ErrObj) : bool :=
  match errors with [] => true | _ :: _ => false end.

(** ** Time spans (the [ms] package, used by jsonwebtoken for [expiresIn]) *)

Definition is_digit (c : ascii) : bool :=
  ((48 <=? nat_of_ascii c) && (nat_of_ascii c <=? 57))%nat.

(** Splits off the leading decimal digits, accumulating their value. *)
Fixpoint read_digits (acc : Z) (seen : bool) (s : string) : option Z * string :=
  match s with
  | String c s' =>
      if is_digit c
      then read_digits (10 * acc + Z.of_nat (nat_of_ascii c - 48)) true s'
      else (if seen then Some acc else None, s)
  | EmptyString => (if seen then Some acc else None, s)
  end.

Fixpoint drop_spaces (s : string) : string :=
  match s with
  | String c s' => if Ascii.eqb c " " then drop_spaces s' else s
  | EmptyString => s
  end.

(** Milliseconds per unit name. *)
Definition ms_units : list (string * Z) :=
  [("years", 31557600000); ("year", 31557600000); ("yrs", 31557600000);
   ("yr", 31557600000); ("y", 31557600000);
   ("weeks", 604800000); ("week", 604800000); ("w", 604800000);
   ("days", 86400000); ("day", 86400000); ("d", 86400000);
   ("hours", 3600000); ("hour", 3600000); ("hrs", 3600000);
   ("hr", 3600000); ("h", 3600000);
   ("minutes", 60000); ("minute", 60000); ("mins", 60000);
   ("min", 60000); ("m", 60000);
   ("seconds", 1000); ("second", 1000); ("secs", 1000);
   ("sec", 1000); ("s", 1000);
   ("milliseconds", 1); ("millisecond", 1); ("msecs", 1);
   ("msec", 1); ("ms", 1)].

Fixpoint unit_ms (u : string) (table : list (string * Z)) : option Z :=
  match table with
  | [] => None
  | (name, k) :: table' => if String.eqb u name then Some k else unit_ms u table'
  end.

(** [ms(span)] for a span written as a natural number, optional spaces and
    an optional unit; [None] where [ms] yields [undefined]. *)
Definition ms (span : string) : option Z :=
  match read_digits 0 false span with
  | (Some n, rest) =>
      let u := toLowerCase (drop_spaces rest) in
      if String.eqb u "" then Some n
      else match unit_ms u ms_units with
           | Some k => Some (n * k)
           | None => None
           end
  | (None, _) => None
  end.

(** [jwt.sign(payload, secret, { expiresIn })] at clock [nowMs]: the claims
    are the payload's user id, [iat] (the clock in whole seconds) and [exp]
    ([iat] plus the span in seconds); a span that [ms] cannot read is the
    [err] of the callback. *)
Definition jwt_sign `{Libs} (userId secret expiresIn : string) (nowMs : Z)
    : option Token :=
  match ms expiresIn with
  | Some span =>
      let issued := nowMs / 1000 in
      let c := mkClaims userId issued (issued + span / 1000) in
      Some (mkToken c (jwt_signature secret c))
  | None => None
  end.

(** [a || b] on a string field: [undefined] and the empty string are
    falsy. *)
Definition or_else (a : option string) (b : string) : string :=
  match a with
  | Some s => if String.eqb s "" then b else s
  | None => b
  end.

(** ** The route handlers *)

Section Handlers.
Context `{Libs}.
Variable env : Env.

(** [returnToken(user, res)].  The span is the literal of the source; the
    [err] branch of the callback is kept although [ms] reads that span
    (lemma [ms_10hr]). *)
Definition returnToken (user : User.t) : M unit :=
  match jwt_sign (User._id user) (jwtSecret env) "10hr" (now env) with
  | Some token => res_json (JToken token)
  | None => throw
  end.

(** [GET /api/posts] *)
Definition get_api_posts (req : Req) : M unit :=
  try_catch
    (posts ← Post_find;
     res_json (JPosts posts))
    (res_status_send 500 "Server error").

(** [GET /api/posts/:id] *)
Definition get_api_posts_id (req : Req) : M unit :=
  try_catch
    (post ← Post_findById (params_id req);
     match post with
     | None => res_status_json 404 (JMsg "Post not found!")
     | Some post => res_json (JPost post)
     end)
    (res_status_send 500 "Server error").

(** [POST /api/login] *)
Definition post_api_login (req : Req) : M unit :=
  let errors :=
    (check JStr "email" "Please enter a valid email" chain_isEmail
       (body_email req)
     ++ check id "password" "A password is required!" chain_exists
          (body_password req))%list in
  if negb (isEmpty errors) then res_status_json 422 (JErrors errors)
  else
    let email := body_email req in
    let password := body_password req in
    try_catch
      (user ← User_findOne_email email;
       match user with
       | None =>
           res_status_json 400 (JErrors [MsgOnly "Invaild email or password!"])
       | Some user =>
           (* bcrypt.compare rejects an argument that is not a string *)
           match password with
           | Some (JStr password) =>
               let match_ := bcrypt_compare password (User.password user) in
               if negb match_
               then res_status_json 400
                      (JErrors [MsgOnly "Invaild email or password!"])
               else returnToken user
           | _ => throw
           end
       end)
      (res_status_send 500 "Server error").

(** [POST /api/users] *)
Definition post_api_users (req : Req) : M unit :=
  let errors :=
    (check JStr "name" "Please enter your name" chain_notEmpty (body_name req)
     ++ check JStr "email" "Please enter your email" chain_isEmail
          (body_email req)
     ++ check id "password" "Please enter a password with at least 6 characters"
          (chain_isLength_min 6) (body_password req))%list in
  if negb (isEmpty errors) then res_status_json 422 (JErrors errors)
  else
    let name := body_name req in
    let email := body_email req in
    let password := body_password req in
    try_catch
      (user ← User_findOne_email email;
       match user with
       | Some _ =>
           res_status_json 400 (JErrors [MsgOnly "User already exists"])
       | None =>
           (* bcrypt.hash rejects a password that is not a string; a user
              document without a name or an email is not saved *)
           match password, name, email with
           | Some (JStr password), Some name, Some email =>
               let user :=
                 User.mk (freshId env) name email
                   (bcrypt_hash password (salt env)) in
               User_insert user ;;
               returnToken user
           | _, _, _ => throw
           end
       end)
      (res_status_send 500 "Server error").

(** [POST /api/posts] *)
Definition post_api_posts (req : Req) : M unit :=
  let errors :=
    (check JStr "title" "Title text is required!" chain_notEmpty
       (body_title req)
     ++ check JStr "body" "Body test is required!" chain_notEmpty
          (body_body req))%list
  in
  if negb (isEmpty errors) then res_status_json 400 (JErrors errors)
  else
    let title := body_title req in
    let body := body_body req in
    try_catch
      (user ← User_findById (req_user_id req);
       match user with
       | None => throw  (* [user.id] of [null] *)
       | Some user =>
           (* [title] and [body] are required paths of [PostSchema] *)
           match title, body with
           | Some title, Some body =>
               let post :=
                 Post.mk (freshId env) (User._id user) body title (now env) in
               Post_insert post ;;
               res_json (JPost post)
           | _, _ => throw
           end
       end)
      (res_status_send 500 "Server error").

(** [DELETE /api/posts/:id] *)
Definition delete_api_posts_id (req : Req) : M unit :=
  try_catch
    (post ← Post_findById (params_id req);
     match post with
     | None => res_status_json 404 (JMsg "Post not found!")
     | Some post =>
         if negb (String.eqb (Post.user post) (req_user_id req))
         then res_status_json 401 (JMsg "User not authorized!")
         else
           Post_remove post ;;
           res_json (JMsg "Post removed!")
     end)
    (res_status_send 500 "Server error").

(** [PUT /api/posts/:id] *)
Definition put_api_posts_id (req : Req) : M unit :=
  try_catch
    (let title := body_title req in
     let body := body_body req in
     post ← Post_findById (params_id req);
     match post with
     | None => res_status_json 404 (JMsg "Post not found!")
     | Some post =>
         if negb (String.eqb (Post.user post) (req_user_id req))
         then res_status_json 401 (JMsg "User not authorized!")
         else
           let post :=
             Post.mk (Post._id post) (Post.user post) (Post.body post)
               (or_else title (Post.title post)) (Post.date post) in
           let post :=
             Post.mk (Post._id post) (Post.user post)
               (or_else title (Post.body post)) (Post.title post)
               (Post.date post) in
           Post_update post
     end)
    (res_status_send 500 "Server error").

End Handlers.

(** Running a handler on a store with a fault oracle: the store afterwards
    and the response, if one was sent. *)
Definition run (h : M unit) (d : Db) (fs : list bool) : Db * option Response :=
  let '(_, s) := h (mkSt d None fs) in (db s, sent s).

(** An oracle under which no store call rejects. *)
Definition healthy (fs : list bool) : bool := forallb negb fs.

(** ** Token verification *)

Inductive VerifyError : Type :=
  | InvalidToken
  | Expired.

(** Modelled from the spec: the token verifier behind the [auth] middleware
    ([./middleware/auth] is imported by the application but is not among the
    sources).  [verify(token, secret)] fails with [InvalidToken] if the
    signature does not match, with [Expired] if the current time exceeds the
    encoded expiry, and otherwise returns the embedded user id.  [clock] is
    the current time in seconds, the unit of the expiry claim. *)
Definition verify `{Libs} (secret : string) (clock : Z) (token : Token)
    : VerifyError + string :=
  if negb (String.eqb (signature token) (jwt_signature secret (claims token)))
  then inl InvalidToken
  else if exp (claims token) <? clock then inl Expired
  else inr (claim_user_id (claims token)).

(** ** A sample instance and sample data *)

(** A stand-in for the libraries, for running the handlers on examples: an
    address has a non-empty local part, an [@] and a non-empty domain; a hash
    is the four-character salt followed by the password. *)
Definition sample_isEmail (s : string) : bool :=
  match String.index 0 "@" s with
  | Some n => ((0 <? n) && (n + 1 <? String.length s))%nat
  | None => false
  end.

Definition sampleLibs : Libs := {|
  isEmail := sample_isEmail;
  bcrypt_hash pw salt := salt ++ pw;
  bcrypt_compare pw h :=
    String.eqb (String.substring 4 (String.length h - 4) h) pw;
  jwt_signature secret c := secret ++ "." ++ claim_user_id c
|}.

(** Identifiers of the sample documents, in string form. *)
Definition alice_id : string := "5db0000000000000000000a1".
Definition bob_id : string := "5db0000000000000000000a2".
Definition post0_id : string := "5db0000000000000000000b0".
Definition post1_id : string := "5db0000000000000000000b1".
(** A well-formed identifier that no sample document has. *)
Definition absent_id : string := "5db0000000000000000000f9".

(** The identifiers the sample environments hand out next. *)
Definition next_post_id : ObjectId := exist _ "5db0000000000000000000b2" I.
Definition next_user_id : ObjectId := exist _ "5db0000000000000000000a3" I.

Definition env0 : Env := mkEnv 1572566400123 next_post_id "salt" "s3cret".

(** The same environment when the next identifier goes to a user. *)
Definition env1 : Env := mkEnv 1572566400123 next_user_id "salt" "s3cret".

Definition alice : User.t :=
  User.mk alice_id "alice" "alice@example.com" "saltsecret1".
Definition bob : User.t :=
  User.mk bob_id "bob" "bob@example.com" "saltsecret2".

Definition post0 : Post.t :=
  Post.mk post0_id alice_id "Old" "Older" 1572560000000.
Definition post1 : Post.t :=
  Post.mk post1_id alice_id "World" "Hi" 1572566000000.

Definition db0 : Db :=
  mkDb [alice; bob] (<[post1_id := post1]> (<[post0_id := post0]> ∅)).

(** A request with the given authenticated user, route parameter and the
    [title] and [body] fields. *)
Definition post_req (uid id : string) (title body : option string) : Req :=
  mkReq uid id None None None title body.

(** A request with the [name], [email] and [password] fields, the password
    a JSON string. *)
Definition user_req (name email password : option string) : Req :=
  mkReq "" "" name email (JStr <$> password) None None.

(** What [PUT /api/posts/:id] stores for the owner: the title is the
    request's [title] when that is truthy, and so is the body. *)
Definition put_result (req : Req) (post : Post.t) : Post.t :=
  Post.mk (Post._id post) (Post.user post)
    (or_else (body_title req) (Post.body post))
    (or_else (body_title req) (Post.title post))
    (Post.date post).

(** Registration and login requests used in the examples. *)
Definition register_alice_again : Req :=
  user_req (Some "alice") (Some "alice@example.com") (Some "12345").
Definition register_alice_again_valid : Req :=
  user_req (Some "alice") (Some "alice@example.com") (Some "123456").
Definition register_carol : Req :=
  user_req (Some "carol") (Some "carol@example.com") (Some "secret3").
Definition login_nobody : Req := user_req None (Some "nobody") (Some "secret1").
Definition login_carol : Req :=
  user_req None (Some "carol@example.com") (Some "secret1").
Definition login_alice_wrong : Req :=
  user_req None (Some "alice@example.com") (Some "secret2").
Definition login_alice : Req :=
  user_req None (Some "alice@example.com") (Some "secret1").
(** A login whose password is the number 12345. *)
Definition login_alice_number : Req :=
  mkReq "" "" None (Some "alice@example.com") (Some (JOther "12345")) None
    None.
(** A registration whose password is the number 1234567. *)
Definition register_carol_number : Req :=
  mkReq "" "" (Some "carol") (Some "carol@example.com")
    (Some (JOther "1234567")) None None.

(** The answer to a login with bad credentials. *)
Definition bad_credentials : Response :=
  mkResponse 400 (JErrors [MsgOnly "Invaild email or password!"]).

(** Every post is stored under its own identifier, as the store has it:
    the key of a document is its [_id]. *)
Definition well_keyed (d : Db) : Prop :=
  ∀ (id : ObjectId) p, posts d !! id = Some p → Post._id p = id.

(** The body [GET /api/auth] answers with: the user document that
    [User.findById] found, [null] when it found none, or the text of the
    [catch] branch. *)
Inductive AuthBody : Type :=
  | JUser (user : option User.t)
  | AuthText (s : string).

(** [GET /api/auth]: the store afterwards, the status and the body.
    [res.status(200).json(user)] sends whatever the lookup returned. *)
Definition get_api_auth (req : Req) (d : Db) (fs : list bool)
    : Db * (nat * AuthBody) :=
  match User_findById (req_user_id req) (mkSt d None fs) with
  | (Val user, s) => (db s, (200%nat, JUser user))
  | (Exn, s) => (db s, (500%nat, AuthText "Unknown server error."))
  end.

(** The answer of the [catch] branches of the post, login and registration
    handlers. *)
Definition server_error : Response := mkResponse 500 (Text "Server error").

(** The answer to a request for a post that is not stored. *)
Definition post_not_found : Response :=
  mkResponse 404 (JMsg "Post not found!").

(** The token [returnToken] sends for a user: the claims carry the user's
    id, the clock in seconds and the expiry 36000 seconds later (the span
    "10hr" as [ms] reads it, lemma [jwt_sign_10hr]). *)
Definition session_token `{Libs} (env : Env) (user : User.t) : Token :=
  let c := mkClaims (User._id user) (now env / 1000) (now env / 1000 + 36000) in
  mkToken c (jwt_signature (jwtSecret env) c).

(** The user document the registration handler saves. *)
Definition new_user `{Libs} (env : Env) (name email password : string)
    : User.t :=
  User.mk (freshId env) name email (bcrypt_hash password (salt env)).

(** * Properties *)

(** ** Identifiers and their string form *)

Lemma lower_hex (c : ascii) : is_hex_lower c = true → lower c = c.
Proof. destruct c as [[] [] [] [] [] [] [] []]; done. Qed.

Lemma toLowerCase_hex (s : string) :
  forallb is_hex_lower (list_ascii_of_string s) = true → toLowerCase s = s.
Proof.
  induction s as [|c s IH]; [done|].
  cbn. intros [Hc Hs]%andb_prop. by rewrite lower_hex, IH.
Qed.

Lemma normalise_canonical (s : string) :
  canonical_id s = true → normalise_id s = s.
Proof.
  unfold canonical_id, normalise_id.
  intros [Hlen Hhex]%andb_prop. apply Nat.eqb_eq in Hlen.
  rewrite Hlen. cbn. by apply toLowerCase_hex.
Qed.

(** The string form of an identifier casts back to the identifier. *)
Lemma castObjectId_toString (k : ObjectId) : castObjectId k = Some k.
Proof.
  destruct k as [s Hs]. unfold castObjectId. cbn.
  destruct (decide _) as [ok|bad].
  - f_equal. apply (sig_eq_pi (λ s, Is_true (canonical_id s))). cbn.
    apply normalise_canonical. by apply Is_true_true.
  - destruct bad. rewrite normalise_canonical; [done|]. by apply Is_true_true.
Qed.

Lemma lookup_string_cast (m : gmap ObjectId Post.t) (id : string)
    (k : ObjectId) :
  castObjectId id = Some k → m !! id = m !! k.
Proof.
  intros Hcast. unfold lookup at 1, posts_lookup_string. by rewrite Hcast.
Qed.

Lemma lookup_string_Some (m : gmap ObjectId Post.t) (id : string)
    (p : Post.t) :
  m !! id = Some p ↔ ∃ k, castObjectId id = Some k ∧ m !! k = Some p.
Proof.
  unfold lookup at 1, posts_lookup_string.
  destruct (castObjectId id) as [k|]; split; try done.
  - eauto.
  - by intros (? & [= <-] & ?).
  - by intros (? & ? & _).
Qed.

Lemma insert_string_cast (m : gmap ObjectId Post.t) (id : string)
    (k : ObjectId) (p : Post.t) :
  castObjectId id = Some k → <[id := p]> m = <[k := p]> m.
Proof.
  intros Hcast. unfold insert at 1, posts_insert_string. by rewrite Hcast.
Qed.

Lemma delete_string_cast (m : gmap ObjectId Post.t) (id : string)
    (k : ObjectId) :
  castObjectId id = Some k → delete id m = delete k m.
Proof.
  intros Hcast. unfold delete at 1, posts_delete_string. by rewrite Hcast.
Qed.

(** ** Store calls under a healthy oracle *)

Lemma healthy_tail fs : healthy fs = true → healthy (tail fs) = true.
Proof.
  destruct fs as [|b fs]; [done|].
  cbn. intros [_ ?]%andb_prop. done.
Qed.

Lemma storeCall_healthy d r fs :
  healthy fs = true →
  storeCall (mkSt d r fs) = (Val (), mkSt d r (tail fs)).
Proof.
  destruct fs as [|[] fs]; cbn; [done|discriminate|done].
Qed.

Lemma Post_findById_healthy id k d r fs :
  healthy fs = true →
  castObjectId id = Some k →
  Post_findById id (mkSt d r fs) = (Val (posts d !! k), mkSt d r (tail fs)).
Proof.
  intros Hfs Hcast. unfold Post_findById, mbind, M_bind. rewrite Hcast.
  by rewrite storeCall_healthy.
Qed.

Lemma Post_findById_found id d r fs post :
  healthy fs = true →
  posts d !! id = Some post →
  Post_findById id (mkSt d r fs) = (Val (Some post), mkSt d r (tail fs)).
Proof.
  intros Hfs (k & Hcast & Hk)%lookup_string_Some.
  by rewrite (Post_findById_healthy id k), Hk.
Qed.

Lemma Post_findById_malformed id s :
  castObjectId id = None → Post_findById id s = (Exn, s).
Proof. intros Hcast. unfold Post_findById. by rewrite Hcast. Qed.

Lemma Post_update_healthy p d r fs :
  healthy fs = true →
  Post_update p (mkSt d r fs) =
    (Val (), mkSt (mkDb (users d) (<[Post._id p := p]> (posts d))) r (tail fs)).
Proof.
  intros Hfs. unfold Post_update, mbind, M_bind.
  by rewrite storeCall_healthy.
Qed.

Lemma Post_insert_healthy p d r fs :
  healthy fs = true →
  posts d !! Post._id p = None →
  Post_insert p (mkSt d r fs) =
    (Val (), mkSt (mkDb (users d) (<[Post._id p := p]> (posts d))) r (tail fs)).
Proof.
  intros Hfs Hfresh. unfold Post_insert, mbind, M_bind.
  rewrite storeCall_healthy by done. cbn. by rewrite Hfresh.
Qed.

Lemma Post_insert_fresh (k : ObjectId) p d r fs :
  healthy fs = true →
  Post._id p = k →
  posts d !! k = None →
  Post_insert p (mkSt d r fs) =
    (Val (), mkSt (mkDb (users d) (<[k := p]> (posts d))) r (tail fs)).
Proof.
  intros Hfs Hid Hfresh.
  rewrite Post_insert_healthy by
    (by rewrite ?Hid, ?(lookup_string_cast _ _ k (castObjectId_toString k))).
  by rewrite Hid, (insert_string_cast _ _ k) by apply castObjectId_toString.
Qed.

Lemma Post_find_healthy d r fs :
  healthy fs = true →
  Post_find (mkSt d r fs) = (Val (Post_find_sort d), mkSt d r (tail fs)).
Proof.
  intros Hfs. unfold Post_find, mbind, M_bind.
  by rewrite storeCall_healthy.
Qed.

Lemma User_findOne_email_healthy e d r fs :
  healthy fs = true →
  User_findOne_email (Some e) (mkSt d r fs) =
    (Val (List.find (λ u, String.eqb (User.email u) e) (users d)),
     mkSt d r (tail fs)).
Proof.
  intros Hfs. unfold User_findOne_email, mbind, M_bind.
  by rewrite storeCall_healthy.
Qed.

Lemma User_findById_healthy id d r fs :
  healthy fs = true →
  User_findById id (mkSt d r fs) =
    (Val (List.find (λ u, String.eqb (User._id u) id) (users d)),
     mkSt d r (tail fs)).
Proof.
  intros Hfs. unfold User_findById, mbind, M_bind.
  by rewrite storeCall_healthy.
Qed.

(** ** Reading one post *)

(** C7, as the handler has it.  With the store answering,
    [GET /api/posts/:id] for a route identifier that is well-formed (it
    casts to an [ObjectId]) leaves the store as it is and answers 404 with
    [{ msg: "Post not found!" }] when no stored post has that identifier,
    and 200 with the post when one has. *)
Theorem get_post_200_or_404 (req : Req) (d : Db) (fs : list bool)
    (k : ObjectId) :
  healthy fs = true →
  castObjectId (params_id req) = Some k →
  run (get_api_posts_id req) d fs =
    (d, Some match posts d !! k with
             | None => mkResponse 404 (JMsg "Post not found!")
             | Some post => mkResponse 200 (JPost post)
             end).
Proof.
  intros Hfs Hcast. unfold run, get_api_posts_id, try_catch, mbind, M_bind.
  rewrite (Post_findById_healthy _ k) by done.
  by destruct (posts d !! k).
Qed.

Lemma get_post_200_or_404_witness :
  healthy [false] = true ∧
  run (get_api_posts_id (post_req alice_id post1_id None None)) db0 [false] =
    (db0, Some (mkResponse 200 (JPost post1))) ∧
  run (get_api_posts_id (post_req alice_id absent_id None None)) db0 [false] =
    (db0, Some (mkResponse 404 (JMsg "Post not found!"))).
Proof.
  split; [reflexivity|]. split.
  - rewrite (get_post_200_or_404 (post_req alice_id post1_id None None) db0
               [false] (exist _ post1_id I)); reflexivity.
  - rewrite (get_post_200_or_404 (post_req alice_id absent_id None None) db0
               [false] (exist _ absent_id I)); reflexivity.
Defined.

(** C7 does not hold of every identifier that resolves to no stored post:
    for a route identifier that is not well-formed the lookup rejects and
    the answer is 500, not 404, although the store answers. *)
Lemma get_post_malformed_id_500 :
  posts db0 !! "not-an-object-id" = None ∧
  run (get_api_posts_id (post_req alice_id "not-an-object-id" None None))
    db0 [] = (db0, Some (mkResponse 500 (Text "Server error"))) ∧
  res_status <$>
    (run (get_api_posts_id (post_req alice_id "not-an-object-id" None None))
       db0 []).2 ≠ Some 404%nat.
Proof.
  split; [reflexivity|]. split; [reflexivity|]. cbn. discriminate.
Qed.

(** ** The ownership guard *)

Lemma eqb_owner_ne (a b : string) : a ≠ b → negb (String.eqb a b) = true.
Proof. intros Hne. by apply negb_true_iff, String.eqb_neq. Qed.

(** C2. When the post of the route is stored with owner [Post.user post]
    and the authenticated requester is someone else, both
    [DELETE /api/posts/:id] and [PUT /api/posts/:id] answer 401 and the
    store, hence every field of the post, is what it was. *)
Theorem non_owner_401_unchanged (req : Req) (d : Db) (fs : list bool)
    (post : Post.t) :
  healthy fs = true →
  posts d !! params_id req = Some post →
  Post.user post ≠ req_user_id req →
  run (delete_api_posts_id req) d fs =
    (d, Some (mkResponse 401 (JMsg "User not authorized!"))) ∧
  run (put_api_posts_id req) d fs =
    (d, Some (mkResponse 401 (JMsg "User not authorized!"))) ∧
  posts (run (delete_api_posts_id req) d fs).1 !! params_id req = Some post ∧
  posts (run (put_api_posts_id req) d fs).1 !! params_id req = Some post.
Proof.
  intros Hfs Hpost Hne.
  assert (run (delete_api_posts_id req) d fs =
            (d, Some (mkResponse 401 (JMsg "User not authorized!")))) as Hdel.
  { unfold run, delete_api_posts_id, try_catch, mbind, M_bind.
    rewrite (Post_findById_found _ _ _ _ post) by done.
    by rewrite eqb_owner_ne. }
  assert (run (put_api_posts_id req) d fs =
            (d, Some (mkResponse 401 (JMsg "User not authorized!")))) as Hput.
  { unfold run, put_api_posts_id, try_catch, mbind, M_bind.
    rewrite (Post_findById_found _ _ _ _ post) by done.
    by rewrite eqb_owner_ne. }
  rewrite Hdel, Hput. done.
Qed.

Lemma non_owner_401_unchanged_witness :
  run (delete_api_posts_id (post_req bob_id post1_id (Some "X") (Some "Y"))) db0 [] =
    (db0, Some (mkResponse 401 (JMsg "User not authorized!"))) ∧
  run (put_api_posts_id (post_req bob_id post1_id (Some "X") (Some "Y"))) db0 [] =
    (db0, Some (mkResponse 401 (JMsg "User not authorized!"))).
Proof.
  destruct (non_owner_401_unchanged
              (post_req bob_id post1_id (Some "X") (Some "Y")) db0 [] post1)
    as (Hdel & Hput & _).
  - reflexivity.
  - reflexivity.
  - discriminate.
  - split; [exact Hdel | exact Hput].
Defined.

(** ** Updating a post *)

Lemma put_owner_run (req : Req) (d : Db) (fs : list bool) (post : Post.t) :
  healthy fs = true →
  posts d !! params_id req = Some post →
  Post.user post = req_user_id req →
  run (put_api_posts_id req) d fs =
    (mkDb (users d) (<[Post._id post := put_result req post]> (posts d)), None).
Proof.
  intros Hfs Hpost Hown.
  unfold run, put_api_posts_id, try_catch, mbind, M_bind.
  rewrite (Post_findById_found _ _ _ _ post) by done.
  replace (String.eqb (Post.user post) (req_user_id req)) with true
    by (symmetry; by apply String.eqb_eq).
  cbn [negb].
  rewrite Post_update_healthy by by apply healthy_tail.
  reflexivity.
Qed.

(** C9. When the post exists, the requester owns it and no store call
    rejects, [PUT /api/posts/:id] ends without having sent a response. *)
Theorem put_success_no_response (req : Req) (d : Db) (fs : list bool)
    (post : Post.t) :
  healthy fs = true →
  posts d !! params_id req = Some post →
  Post.user post = req_user_id req →
  (run (put_api_posts_id req) d fs).2 = None.
Proof.
  intros Hfs Hpost Hown. by rewrite (put_owner_run req d fs post).
Qed.

Lemma put_success_no_response_witness :
  (run (put_api_posts_id (post_req alice_id post1_id (Some "T") (Some "B")))
     db0 [false; false]).2 = None.
Proof.
  apply (put_success_no_response
           (post_req alice_id post1_id (Some "T") (Some "B")) db0 [false; false] post1);
    reflexivity.
Defined.

(** C1. The owner of post [p1] (title "Hi", body "World") sends a PUT with
    title "T" and body "B": the stored title becomes "T", and the stored
    body becomes "T" as well, not "B". *)
Theorem put_body_gets_title :
  let d' := (run (put_api_posts_id (post_req alice_id post1_id (Some "T") (Some "B")))
               db0 []).1 in
  Post.title <$> posts d' !! post1_id = Some "T" ∧
  Post.body <$> posts d' !! post1_id = Some "T" ∧
  Post.body <$> posts d' !! post1_id ≠ Some "B".
Proof.
  cbv zeta.
  rewrite (put_owner_run _ db0 [] post1) by reflexivity.
  split; [reflexivity|]. split; [reflexivity|].
  intros Hbody. vm_compute in Hbody. discriminate.
Qed.

(** ** Listing the posts *)

#[local] Instance date_desc_total : Total date_desc.
Proof. intros p q. unfold date_desc. lia. Qed.

#[local] Instance date_desc_trans : Transitive date_desc.
Proof. intros p q r. unfold date_desc. lia. Qed.

Lemma Post_find_sort_perm (d : Db) :
  Post_find_sort d ≡ₚ (map_to_list (posts d)).*2.
Proof. apply merge_sort_Permutation. Qed.

Lemma Post_find_sort_stored (d : Db) (p : Post.t) :
  p ∈ Post_find_sort d ↔ ∃ id, posts d !! id = Some p.
Proof.
  rewrite Post_find_sort_perm, list_elem_of_fmap. split.
  - intros [[id q] [-> Hin]]. exists id. by apply elem_of_map_to_list.
  - intros [id Hid]. exists (id, p). split; [done|].
    by apply elem_of_map_to_list.
Qed.

Lemma Post_find_sort_sorted (d : Db) :
  StronglySorted date_desc (Post_find_sort d).
Proof. apply StronglySorted_merge_sort; apply _. Qed.

(** C6. With the store answering, [GET /api/posts] answers 200 with an array
    that holds exactly the stored posts (a permutation of the collection),
    in descending order of [date]; a post stored under [id] whose date is
    later than that of every post stored under another identifier is the
    first element. *)
Theorem get_posts_newest_first (req : Req) (d : Db) (fs : list bool) :
  healthy fs = true →
  run (get_api_posts req) d fs =
    (d, Some (mkResponse 200 (JPosts (Post_find_sort d)))) ∧
  Post_find_sort d ≡ₚ (map_to_list (posts d)).*2 ∧
  StronglySorted date_desc (Post_find_sort d) ∧
  ∀ id p,
    posts d !! id = Some p →
    (∀ id' q, posts d !! id' = Some q → id' ≠ id → Post.date q < Post.date p) →
    head (Post_find_sort d) = Some p.
Proof.
  intros Hfs. split; [|split; [|split]].
  - unfold run, get_api_posts, try_catch, mbind, M_bind.
    by rewrite Post_find_healthy.
  - apply Post_find_sort_perm.
  - apply Post_find_sort_sorted.
  - intros id p Hp Hnewest.
    assert (p ∈ Post_find_sort d) as Hin
      by (apply Post_find_sort_stored; eauto).
    pose proof (Post_find_sort_sorted d) as Hsorted.
    pose proof (Post_find_sort_stored d) as Hstored.
    destruct (Post_find_sort d) as [|x l]; [by apply elem_of_nil in Hin|].
    cbn. f_equal.
    apply elem_of_cons in Hin as [->|Hin]; [done|].
    destruct (Hstored x) as [[id' Hx] _]; [left|].
    destruct (decide (id' = id)) as [->|Hne]; [congruence|].
    specialize (Hnewest id' x Hx Hne).
    apply StronglySorted_inv in Hsorted as [_ Hall].
    rewrite Forall_forall in Hall. specialize (Hall p Hin).
    unfold date_desc in Hall. lia.
Qed.

Lemma get_posts_newest_first_witness :
  run (get_api_posts (post_req alice_id "" None None)) db0 [false] =
    (db0, Some (mkResponse 200 (JPosts [post1; post0]))).
Proof.
  destruct (get_posts_newest_first (post_req alice_id "" None None) db0 [false])
    as [Hrun _]; [reflexivity|].
  rewrite Hrun. reflexivity.
Defined.

(** ** Creating a post *)

Lemma chain_notEmpty_Some (s : string) :
  s ≠ "" → chain_notEmpty (Some s) = true.
Proof. intros Hne. by apply negb_true_iff, String.eqb_neq. Qed.

Lemma find_by_id_stored (us : list User.t) (u : User.t) :
  In u us →
  ∃ u', List.find (λ v, String.eqb (User._id v) (User._id u)) us = Some u'
        ∧ User._id u' = User._id u.
Proof.
  intros Hin.
  destruct (List.find _ us) as [u'|] eqn:Hfind.
  - exists u'. split; [done|].
    apply find_some in Hfind as [_ Heq]. by apply String.eqb_eq in Heq.
  - apply (find_none _ _ Hfind) in Hin. by rewrite String.eqb_refl in Hin.
Qed.

(** C3. The authenticated requester is the stored user [u]; the request
    carries a non-empty [title] and [body]; the store answers and the new
    identifier is not taken.  Then [POST /api/posts] stores a post whose
    owning-user reference is [u]'s id, with that title and body and the
    current time as date, and answers 200 with that post. *)
Theorem create_post_owner_is_requester (env : Env) (req : Req) (d : Db)
    (fs : list bool) (u : User.t) (title body : string) :
  healthy fs = true →
  In u (users d) →
  req_user_id req = User._id u →
  body_title req = Some title → title ≠ "" →
  body_body req = Some body → body ≠ "" →
  posts d !! freshId env = None →
  let post := Post.mk (freshId env) (User._id u) body title (now env) in
  run (post_api_posts env req) d fs =
    (mkDb (users d) (<[freshId env := post]> (posts d)),
     Some (mkResponse 200 (JPost post)))
  ∧ Post.user post = User._id u
  ∧ posts (run (post_api_posts env req) d fs).1 !! freshId env = Some post.
Proof.
  intros Hfs Hin Hid Htitle Ht Hbody Hb Hfresh post.
  assert (run (post_api_posts env req) d fs =
            (mkDb (users d) (<[freshId env := post]> (posts d)),
             Some (mkResponse 200 (JPost post)))) as Hrun.
  { unfold run, post_api_posts, check.
    rewrite Htitle, Hbody, !chain_notEmpty_Some by done. cbn [app isEmpty negb].
    unfold try_catch, mbind, M_bind.
    rewrite User_findById_healthy, Hid by done.
    destruct (find_by_id_stored (users d) u Hin) as (u' & -> & Hu').
    rewrite Hu'. fold post.
    rewrite (Post_insert_fresh (freshId env))
      by (by apply healthy_tail || done).
    reflexivity. }
  rewrite Hrun. split; [done|]. split; [done|].
  cbn. apply lookup_insert_eq.
Qed.

Lemma create_post_owner_is_requester_witness :
  let post := Post.mk next_post_id alice_id "World" "Hi" 1572566400123 in
  run (post_api_posts env0 (post_req alice_id "" (Some "Hi") (Some "World")))
    db0 [false; false] =
    (mkDb (users db0) (<[next_post_id := post]> (posts db0)),
     Some (mkResponse 200 (JPost post))).
Proof.
  intros post.
  destruct (create_post_owner_is_requester env0
              (post_req alice_id "" (Some "Hi") (Some "World")) db0 [false; false]
              alice "Hi" "World") as [Hrun _].
  - reflexivity.
  - simpl. left. reflexivity.
  - reflexivity.
  - reflexivity.
  - discriminate.
  - reflexivity.
  - discriminate.
  - reflexivity.
  - exact Hrun.
Defined.

(** The validation gate of [POST /api/posts]: a request whose [title] or
    [body] is empty or missing is answered 400 with the array of validation
    errors, which is not empty, and nothing is stored. *)
Lemma create_post_invalid_400 (env : Env) (req : Req) (d : Db)
    (fs : list bool) :
  chain_notEmpty (body_title req) = false
  ∨ chain_notEmpty (body_body req) = false →
  ∃ errors, errors ≠ [] ∧
    run (post_api_posts env req) d fs =
      (d, Some (mkResponse 400 (JErrors errors))).
Proof.
  intros Hbad. unfold run, post_api_posts.
  set (errors := (check _ _ _ _ (body_title req) ++ check _ _ _ _ _)%list).
  assert (errors ≠ []) as Hne.
  { unfold errors, check.
    destruct Hbad as [-> | ->]; [done|].
    by destruct (chain_notEmpty (body_title req)). }
  exists errors. split; [done|].
  by destruct errors.
Qed.

(** C4. An authenticated [POST /api/posts] without a [title]: the answer
    carries the validation error and no post is created, but its status is
    400, not 422. *)
Theorem create_post_missing_title_400 :
  run (post_api_posts env0 (post_req alice_id "" None (Some "World"))) db0 [] =
    (db0,
     Some (mkResponse 400
             (JErrors [FieldError None "Title text is required!" "title"
                         "body"]))).
Proof. reflexivity. Qed.

(** ** Registration *)

Lemma find_by_email_stored (us : list User.t) (u : User.t) :
  In u us →
  ∃ u', List.find (λ v, String.eqb (User.email v) (User.email u)) us = Some u'
        ∧ In u' us ∧ User.email u' = User.email u.
Proof.
  intros Hin.
  destruct (List.find _ us) as [u'|] eqn:Hfind.
  - exists u'. split; [done|].
    apply find_some in Hfind as [? Heq]. by apply String.eqb_eq in Heq.
  - apply (find_none _ _ Hfind) in Hin. by rewrite String.eqb_refl in Hin.
Qed.

(** C5, as the handler has it.  A registration request that passes the
    validation (non-empty name, well-formed email, password of at least six
    characters) and whose email is that of a stored user is answered 400
    with "User already exists", and the store is what it was. *)
Theorem register_duplicate_email_400 `{Libs} (env : Env) (req : Req) (d : Db)
    (fs : list bool) (u : User.t) :
  healthy fs = true →
  chain_notEmpty (body_name req) = true →
  chain_isEmail (body_email req) = true →
  chain_isLength_min 6 (body_password req) = true →
  In u (users d) →
  body_email req = Some (User.email u) →
  run (post_api_users env req) d fs =
    (d, Some (mkResponse 400 (JErrors [MsgOnly "User already exists"]))).
Proof.
  intros Hfs Hname Hemail Hpw Hin Heq.
  unfold run, post_api_users, check.
  rewrite Hname, Hemail, Hpw. cbn [app isEmpty negb].
  unfold try_catch, mbind, M_bind.
  rewrite Heq, User_findOne_email_healthy by done.
  by destruct (find_by_email_stored (users d) u Hin) as (u' & -> & _).
Qed.

Lemma register_duplicate_email_400_witness :
  run (post_api_users (H := sampleLibs) env0 register_alice_again_valid)
    db0 [false] =
    (db0, Some (mkResponse 400 (JErrors [MsgOnly "User already exists"]))).
Proof.
  apply (register_duplicate_email_400 (H := sampleLibs) env0
           register_alice_again_valid db0 [false] alice).
  - reflexivity.
  - reflexivity.
  - reflexivity.
  - reflexivity.
  - simpl. left. reflexivity.
  - reflexivity.
Defined.

(** C5 does not hold of every request with a stored email: one whose
    password has five characters is stopped by the validation and answered
    422, not 400. *)
Lemma register_duplicate_email_short_password_422 :
  In alice (users db0) ∧
  body_email register_alice_again = Some (User.email alice) ∧
  run (post_api_users (H := sampleLibs) env0 register_alice_again) db0 [] =
    (db0,
     Some (mkResponse 422
             (JErrors
                [FieldError (Some (JStr "12345"))
                   "Please enter a password with at least 6 characters"
                   "password" "body"]))) ∧
  res_status <$> (run (post_api_users (H := sampleLibs) env0
                         register_alice_again) db0 []).2 ≠ Some 400%nat.
Proof.
  split; [by left|]. split; [reflexivity|]. split; [reflexivity|].
  cbn. discriminate.
Qed.

(** ** Login *)

Lemma find_by_email_unknown (us : list User.t) (e : string) :
  (∀ u, In u us → User.email u ≠ e) →
  List.find (λ v, String.eqb (User.email v) e) us = None.
Proof.
  intros Hnone.
  destruct (List.find _ us) as [u'|] eqn:Hfind; [|done].
  apply find_some in Hfind as [Hin Heq]. apply String.eqb_eq in Heq.
  by destruct (Hnone u' Hin).
Qed.

(** C10, as the handler has it.  Two login requests that pass the
    validation (well-formed email, password present), the store answering:
    one whose email is that of no stored user, one whose email is stored
    and whose password is a JSON string that matches the hash of no user
    with that email.  Both are answered 400 with the same body, and the
    store is what it was. *)
Theorem login_failures_same_response `{Libs} (env : Env) (r1 r2 : Req)
    (d : Db) (fs1 fs2 : list bool) (e2 pw2 : string) :
  healthy fs1 = true → healthy fs2 = true →
  chain_isEmail (body_email r1) = true →
  chain_exists (body_password r1) = true →
  (∀ u, In u (users d) → Some (User.email u) ≠ body_email r1) →
  chain_isEmail (body_email r2) = true →
  body_email r2 = Some e2 →
  body_password r2 = Some (JStr pw2) →
  (∃ u, In u (users d) ∧ User.email u = e2) →
  (∀ u, In u (users d) → User.email u = e2 →
        bcrypt_compare pw2 (User.password u) = false) →
  run (post_api_login env r1) d fs1 = (d, Some bad_credentials) ∧
  run (post_api_login env r2) d fs2 = (d, Some bad_credentials) ∧
  (run (post_api_login env r1) d fs1).2 = (run (post_api_login env r2) d fs2).2.
Proof.
  intros Hfs1 Hfs2 Hemail1 Hpw1 Hunknown Hvalid2 Hemail2 Hpw2 [u [Hin Hu]] Hwrong.
  assert (run (post_api_login env r1) d fs1 = (d, Some bad_credentials)) as H1.
  { unfold run, post_api_login, check.
    rewrite Hemail1, Hpw1. cbn [app isEmpty negb].
    unfold try_catch, mbind, M_bind.
    destruct (body_email r1) as [e1|] eqn:He1.
    - rewrite User_findOne_email_healthy by done.
      rewrite find_by_email_unknown; [done|].
      intros v Hv Heq. apply (Hunknown v Hv). by rewrite Heq.
    - unfold User_findOne_email, mbind, M_bind.
      by rewrite storeCall_healthy. }
  assert (run (post_api_login env r2) d fs2 = (d, Some bad_credentials)) as H2.
  { unfold run, post_api_login, check.
    rewrite Hvalid2, Hemail2, Hpw2. cbn [chain_exists app isEmpty negb].
    unfold try_catch, mbind, M_bind.
    rewrite User_findOne_email_healthy by done.
    subst e2.
    destruct (find_by_email_stored (users d) u Hin) as (u' & -> & Hin' & Hu').
    by rewrite (Hwrong u' Hin' Hu'). }
  by rewrite H1, H2.
Qed.

Lemma login_failures_same_response_witness :
  run (post_api_login (H := sampleLibs) env0 login_carol) db0 [false] =
    run (post_api_login (H := sampleLibs) env0 login_alice_wrong) db0 [false].
Proof.
  destruct (login_failures_same_response (H := sampleLibs) env0
              login_carol login_alice_wrong db0 [false] [false]
              "alice@example.com" "secret2") as (H1 & H2 & _).
  - reflexivity.
  - reflexivity.
  - reflexivity.
  - reflexivity.
  - intros u [<-|[<-|[]]]; discriminate.
  - reflexivity.
  - reflexivity.
  - reflexivity.
  - exists alice. split; [by left | reflexivity].
  - intros u [<-|[<-|[]]]; [reflexivity | discriminate].
  - rewrite H1, H2. reflexivity.
Defined.

(** C10 does not hold of every failing pair.  A login whose email is that
    of no stored user but is not well-formed is answered 422 with the
    validation error, while the wrong password for a stored email is
    answered 400.  And among the logins that pass the validation, one for a
    stored email whose password is present but is not a string (here the
    number 12345) is answered 500, because [bcrypt.compare] rejects it,
    while one for an unknown email is answered 400. *)
Lemma login_failures_differ :
  (body_email login_nobody = Some "nobody" ∧
   existsb (λ u, String.eqb (User.email u) "nobody") (users db0) = false ∧
   run (post_api_login (H := sampleLibs) env0 login_nobody) db0 [] =
     (db0,
      Some (mkResponse 422
              (JErrors [FieldError (Some (JStr "nobody"))
                          "Please enter a valid email" "email" "body"]))) ∧
   run (post_api_login (H := sampleLibs) env0 login_alice_wrong) db0 [] =
     (db0, Some bad_credentials) ∧
   (run (post_api_login (H := sampleLibs) env0 login_nobody) db0 []).2
   ≠ (run (post_api_login (H := sampleLibs) env0 login_alice_wrong) db0 []).2)
  ∧
  (chain_isEmail (H := sampleLibs) (body_email login_alice_number) = true ∧
   chain_exists (body_password login_alice_number) = true ∧
   body_email login_alice_number = Some (User.email alice) ∧
   run (post_api_login (H := sampleLibs) env0 login_alice_number) db0 [] =
     (db0, Some (mkResponse 500 (Text "Server error"))) ∧
   run (post_api_login (H := sampleLibs) env0 login_carol) db0 [] =
     (db0, Some bad_credentials)).
Proof.
  split.
  - do 4 (split; [reflexivity|]). cbn. discriminate.
  - repeat split.
Qed.

(** ** Session tokens *)

Lemma ms_10hr : ms "10hr" = Some 36000000.
Proof. reflexivity. Qed.

(** The token [returnToken] signs: the user id, the clock in seconds as
    issue time and an expiry 36000 seconds (ten hours) later. *)
Lemma jwt_sign_10hr `{Libs} (uid secret : string) (nowMs : Z) :
  jwt_sign uid secret "10hr" nowMs =
    Some (let c := mkClaims uid (nowMs / 1000) (nowMs / 1000 + 36000) in
          mkToken c (jwt_signature secret c)).
Proof. reflexivity. Qed.

Lemma returnToken_sends `{Libs} (env : Env) (u : User.t) (s : St) :
  returnToken env u s =
    (Val (),
     mkSt (db s)
       (Some (mkResponse 200
          (JToken (let c := mkClaims (User._id u) (now env / 1000)
                              (now env / 1000 + 36000) in
                   mkToken c (jwt_signature (jwtSecret env) c)))))
       (faults s)).
Proof. unfold returnToken. by rewrite jwt_sign_10hr. Qed.

Lemma login_issues_token `{Libs} (env : Env) (req : Req) (d : Db)
    (fs : list bool) (code : nat) (t : Token) :
  (run (post_api_login env req) d fs).2 = Some (mkResponse code (JToken t)) →
  ∃ u, List.find (λ v, String.eqb (User.email v) (User.email u)) (users d)
         = Some u
       ∧ (run (post_api_login env req) d fs).1 = d
       ∧ body_email req = Some (User.email u)
       ∧ jwt_sign (User._id u) (jwtSecret env) "10hr" (now env) = Some t.
Proof.
  unfold run, post_api_login.
  destruct (negb (isEmpty _)); [discriminate|].
  unfold try_catch, mbind, M_bind, User_findOne_email, mbind, M_bind, storeCall.
  destruct fs as [|[] fs]; cbn [faults db sent get_db mret M_ret];
    try discriminate.
  all: destruct (body_email req) as [e|]; try discriminate.
  all: destruct (List.find _ (users d)) as [u|] eqn:Hfind; try discriminate.
  all: destruct (body_password req) as [[pw|?]|]; try discriminate.
  all: destruct (negb (bcrypt_compare pw (User.password u))); try discriminate.
  all: rewrite returnToken_sends; cbn; intros [= _ <-].
  all: pose proof Hfind as Hemail.
  all: apply find_some in Hemail as [_ Heq]; apply String.eqb_eq in Heq.
  all: exists u; by rewrite Heq, jwt_sign_10hr.
Qed.

Lemma register_issues_token `{Libs} (env : Env) (req : Req) (d : Db)
    (fs : list bool) (code : nat) (t : Token) :
  (run (post_api_users env req) d fs).2 = Some (mkResponse code (JToken t)) →
  ∃ u, (run (post_api_users env req) d fs).1 = mkDb (users d ++ [u]) (posts d)
       ∧ body_email req = Some (User.email u)
       ∧ jwt_sign (User._id u) (jwtSecret env) "10hr" (now env) = Some t.
Proof.
  unfold run, post_api_users.
  destruct (negb (isEmpty _)); [discriminate|].
  unfold try_catch, mbind, M_bind, User_findOne_email, User_insert, mbind,
    M_bind, storeCall.
  destruct fs as [|[] [|[] fs]]; cbn [faults db sent get_db mret M_ret];
    try discriminate.
  all: destruct (body_email req) as [e|];
       destruct (body_password req) as [[pw|?]|];
       destruct (body_name req) as [n|]; try discriminate.
  all: destruct (List.find (λ u, String.eqb (User.email u) e) (users d));
    try discriminate.
  all: cbn [faults db sent get_db mret M_ret User._id].
  all: destruct (List.find (λ v, String.eqb (User._id v) (freshId env))
                   (users d)); try discriminate.
  all: cbn [put_db db sent faults].
  all: rewrite returnToken_sends; cbn; intros [= _ <-].
  all: eexists; split; [reflexivity|].
  all: by rewrite jwt_sign_10hr.
Qed.

(** Registration of a new address stores the user with the hashed password
    and answers with a token for the new user's id. *)
Example register_carol_token :
  run (post_api_users (H := sampleLibs) env1 register_carol) db0 [] =
    (mkDb [alice; bob;
           User.mk next_user_id "carol" "carol@example.com" "saltsecret3"]
       (posts db0),
     Some (mkResponse 200
             (JToken (mkToken (mkClaims next_user_id 1572566400 1572602400)
                        ("s3cret." ++ next_user_id))))).
Proof. reflexivity. Qed.

(** C8.  A token sent by the login or the registration handler belongs to a
    user [u] of the store: at login the user that the lookup by the
    request's email returns, at registration the user that the request adds
    to the store.  The token carries [u]'s id, the issue time and an expiry
    36000 seconds, ten hours, after it; verified with the signing secret at
    a time before the expiry it yields [u]'s id, and at a time past the
    expiry verification fails with [Expired]. *)
Theorem issued_token_valid_until_expiry `{Libs} (env : Env) (req : Req)
    (d : Db) (fs : list bool) (code : nat) (t : Token) :
  (run (post_api_login env req) d fs).2 = Some (mkResponse code (JToken t))
  ∨ (run (post_api_users env req) d fs).2 = Some (mkResponse code (JToken t)) →
  ∃ u : User.t,
    ((run (post_api_login env req) d fs).2 = Some (mkResponse code (JToken t))
     ∧ List.find (λ v, String.eqb (User.email v) (User.email u)) (users d)
         = Some u
     ∧ In u (users (run (post_api_login env req) d fs).1)
     ∨ (run (post_api_users env req) d fs).2 =
         Some (mkResponse code (JToken t))
       ∧ (run (post_api_users env req) d fs).1 =
           mkDb (users d ++ [u]) (posts d)
       ∧ In u (users (run (post_api_users env req) d fs).1))
    ∧ body_email req = Some (User.email u)
    ∧ claim_user_id (claims t) = User._id u
    ∧ iat (claims t) = now env / 1000
    ∧ exp (claims t) = iat (claims t) + 10 * 3600
    ∧ ∀ clock : Z,
        (clock < exp (claims t) →
         verify (jwtSecret env) clock t = inr (User._id u))
        ∧ (exp (claims t) < clock →
           verify (jwtSecret env) clock t = inl Expired).
Proof.
  intros Hsent.
  assert (∃ u,
    ((run (post_api_login env req) d fs).2 = Some (mkResponse code (JToken t))
     ∧ List.find (λ v, String.eqb (User.email v) (User.email u)) (users d)
         = Some u
     ∧ In u (users (run (post_api_login env req) d fs).1)
     ∨ (run (post_api_users env req) d fs).2 =
         Some (mkResponse code (JToken t))
       ∧ (run (post_api_users env req) d fs).1 =
           mkDb (users d ++ [u]) (posts d)
       ∧ In u (users (run (post_api_users env req) d fs).1))
    ∧ body_email req = Some (User.email u)
    ∧ jwt_sign (User._id u) (jwtSecret env) "10hr" (now env) = Some t)
    as (u & Hwho & Hemail & Hsign).
  { destruct Hsent as [Hsent|Hsent].
    - destruct (login_issues_token _ _ _ _ _ _ Hsent)
        as (u & Hfind & Hd & ? & ?).
      exists u. split; [|done]. left. split; [done|]. split; [done|].
      rewrite Hd. by apply find_some in Hfind as [? _].
    - destruct (register_issues_token _ _ _ _ _ _ Hsent) as (u & Hd & ? & ?).
      exists u. split; [|done]. right. split; [done|]. split; [done|].
      rewrite Hd. cbn. apply in_or_app. right. by left. }
  rewrite jwt_sign_10hr in Hsign. injection Hsign as <-.
  exists u. cbn [claims claim_user_id iat exp].
  do 5 (split; [done|]).
  intros clock. unfold verify. cbn [claims signature claim_user_id exp].
  rewrite String.eqb_refl. cbn [negb].
  split; intros Hclock.
  - by destruct (Z.ltb_spec (now env / 1000 + 36000) clock); [lia|].
  - by destruct (Z.ltb_spec (now env / 1000 + 36000) clock); [|lia].
Qed.

Lemma issued_token_valid_until_expiry_witness :
  ∃ t : Token,
    (run (post_api_login (H := sampleLibs) env0 login_alice) db0 []).2 =
      Some (mkResponse 200 (JToken t))
    ∧ claim_user_id (claims t) = alice_id
    ∧ exp (claims t) = 1572602400
    ∧ verify (H := sampleLibs) "s3cret" 1572602399 t = inr alice_id
    ∧ verify (H := sampleLibs) "s3cret" 1572602401 t = inl Expired.
Proof.
  set (t := mkToken (mkClaims alice_id 1572566400 1572602400)
              ("s3cret." ++ alice_id)).
  exists t.
  assert ((run (post_api_login (H := sampleLibs) env0 login_alice) db0 []).2 =
            Some (mkResponse 200 (JToken t))) as Hsent by reflexivity.
  destruct (issued_token_valid_until_expiry (H := sampleLibs) env0 login_alice
              db0 [] 200 t (or_introl Hsent))
    as (u & Hwho & Hemail & Hid & Hiat & Hexp & Hverify).
  split; [exact Hsent|]. split; [reflexivity|]. split; [reflexivity|].
  destruct (Hverify 1572602399) as [Hbefore _].
  destruct (Hverify 1572602401) as [_ Hafter].
  split.
  - change (verify (H := sampleLibs) (jwtSecret env0) 1572602399 t =
              inr (claim_user_id (claims t))).
    rewrite Hid. apply Hbefore. reflexivity.
  - apply Hafter. reflexivity.
Defined.

(** * Further properties of the handlers *)

(** ** Missing posts and failing store calls *)

(** X1. With the store answering, [DELETE /api/posts/:id] and
    [PUT /api/posts/:id] for a well-formed identifier (one that casts to an
    [ObjectId]) that no stored post has answer 404 with "Post not found!"
    and leave the store as it is. *)
Theorem delete_put_missing_404 (req : Req) (d : Db) (fs : list bool)
    (k : ObjectId) :
  healthy fs = true →
  castObjectId (params_id req) = Some k →
  posts d !! k = None →
  run (delete_api_posts_id req) d fs = (d, Some post_not_found) ∧
  run (put_api_posts_id req) d fs = (d, Some post_not_found).
Proof.
  intros Hfs Hcast Hnone. split.
  - unfold run, delete_api_posts_id, try_catch, mbind, M_bind.
    by rewrite (Post_findById_healthy _ k), Hnone.
  - unfold run, put_api_posts_id, try_catch, mbind, M_bind.
    by rewrite (Post_findById_healthy _ k), Hnone.
Qed.

Lemma delete_put_missing_404_witness :
  run (delete_api_posts_id (post_req alice_id absent_id None None)) db0
    [false] = (db0, Some post_not_found) ∧
  run (put_api_posts_id (post_req alice_id absent_id (Some "T") None)) db0
    [false] = (db0, Some post_not_found).
Proof.
  split.
  - apply (delete_put_missing_404 (post_req alice_id absent_id None None) db0
             [false] (exist _ absent_id I)); reflexivity.
  - apply (delete_put_missing_404
             (post_req alice_id absent_id (Some "T") None) db0 [false]
             (exist _ absent_id I)); reflexivity.
Defined.

(** X20. For a route identifier that is not well-formed (a string that is
    neither 12 characters nor 24 hexadecimal digits), the handlers of
    [GET /api/posts/:id], [DELETE /api/posts/:id] and [PUT /api/posts/:id]
    answer 500 with "Server error", whatever the store holds and whichever
    store calls would reject, and the store is what it was. *)
Theorem malformed_id_500 (req : Req) (d : Db) (fs : list bool) :
  castObjectId (params_id req) = None →
  run (get_api_posts_id req) d fs = (d, Some server_error) ∧
  run (delete_api_posts_id req) d fs = (d, Some server_error) ∧
  run (put_api_posts_id req) d fs = (d, Some server_error).
Proof.
  intros Hcast. split; [|split].
  - unfold run, get_api_posts_id, try_catch, mbind, M_bind.
    by rewrite Post_findById_malformed.
  - unfold run, delete_api_posts_id, try_catch, mbind, M_bind.
    by rewrite Post_findById_malformed.
  - unfold run, put_api_posts_id, try_catch, mbind, M_bind.
    by rewrite Post_findById_malformed.
Qed.

Lemma malformed_id_500_witness :
  run (delete_api_posts_id (post_req alice_id "not-an-object-id" None None))
    db0 [] = (db0, Some server_error).
Proof.
  apply (malformed_id_500 (post_req alice_id "not-an-object-id" None None)
           db0 []).
  reflexivity.
Defined.

(** X2. When the first store call of a request rejects, the handlers of
    [GET /api/posts], [GET /api/posts/:id], [DELETE /api/posts/:id] and
    [PUT /api/posts/:id] answer 500 with the text "Server error", whatever
    the request, and the store is what it was. *)
Theorem first_store_call_rejects_500 (req : Req) (d : Db) (fs : list bool) :
  run (get_api_posts req) d (true :: fs) = (d, Some server_error) ∧
  run (get_api_posts_id req) d (true :: fs) = (d, Some server_error) ∧
  run (delete_api_posts_id req) d (true :: fs) = (d, Some server_error) ∧
  run (put_api_posts_id req) d (true :: fs) = (d, Some server_error).
Proof.
  split; [done|].
  unfold run, get_api_posts_id, delete_api_posts_id, put_api_posts_id,
    try_catch, mbind, M_bind, Post_findById.
  by destruct (castObjectId (params_id req)).
Qed.

(** X3. The owner's [DELETE] or [PUT] whose lookup succeeds but whose write
    ([post.remove()], [post.save()]) rejects is answered 500 and the store
    keeps the post as it was: no partial update is left behind. *)
Theorem write_rejected_keeps_post (req : Req) (d : Db) (fs : list bool)
    (post : Post.t) :
  posts d !! params_id req = Some post →
  Post.user post = req_user_id req →
  run (delete_api_posts_id req) d (false :: true :: fs) =
    (d, Some server_error) ∧
  run (put_api_posts_id req) d (false :: true :: fs) = (d, Some server_error).
Proof.
  intros Hpost Hown.
  assert (String.eqb (Post.user post) (req_user_id req) = true) as Heqb
    by by apply String.eqb_eq.
  assert (∀ r, Post_findById (params_id req) (mkSt d r (false :: true :: fs))
               = (Val (Some post), mkSt d r (true :: fs))) as Hfind.
  { intros r. apply lookup_string_Some in Hpost as (k & Hcast & Hk).
    unfold Post_findById, mbind, M_bind. rewrite Hcast. cbn. by rewrite Hk. }
  split.
  - unfold run, delete_api_posts_id, try_catch, mbind, M_bind.
    rewrite Hfind, Heqb. reflexivity.
  - unfold run, put_api_posts_id, try_catch, mbind, M_bind.
    rewrite Hfind, Heqb. reflexivity.
Qed.

Lemma write_rejected_keeps_post_witness :
  run (delete_api_posts_id (post_req alice_id post1_id None None)) db0 [false; true] =
    (db0, Some server_error) ∧
  run (put_api_posts_id (post_req alice_id post1_id (Some "T") (Some "B"))) db0
    [false; true] = (db0, Some server_error).
Proof.
  split.
  - apply (write_rejected_keeps_post (post_req alice_id post1_id None None) db0 []
             post1); reflexivity.
  - apply (write_rejected_keeps_post (post_req alice_id post1_id (Some "T") (Some "B"))
             db0 [] post1); reflexivity.
Defined.

(** ** Deleting a post *)

Lemma Post_remove_healthy p d r fs :
  healthy fs = true →
  Post_remove p (mkSt d r fs) =
    (Val (), mkSt (mkDb (users d) (delete (Post._id p) (posts d))) r (tail fs)).
Proof.
  intros Hfs. unfold Post_remove, mbind, M_bind.
  by rewrite storeCall_healthy.
Qed.

(** X4. With the store answering, the owner's [DELETE /api/posts/:id] of a
    post stored under its own identifier answers 200 with "Post removed!";
    afterwards the users and every other post (what a string that does not
    spell the same identifier reaches) are as before, and a
    [GET /api/posts/:id] for the same identifier answers 404. *)
Theorem delete_owner_removes_post (req req' : Req) (d : Db)
    (fs fs' : list bool) (post : Post.t) :
  healthy fs = true → healthy fs' = true →
  posts d !! params_id req = Some post →
  Post._id post = params_id req →
  Post.user post = req_user_id req →
  params_id req' = params_id req →
  let d' := (run (delete_api_posts_id req) d fs).1 in
  run (delete_api_posts_id req) d fs =
    (mkDb (users d) (delete (params_id req) (posts d)),
     Some (mkResponse 200 (JMsg "Post removed!")))
  ∧ (∀ id : string,
       castObjectId id ≠ castObjectId (params_id req) →
       posts d' !! id = posts d !! id)
  ∧ run (get_api_posts_id req') d' fs' = (d', Some post_not_found).
Proof.
  intros Hfs Hfs' Hpost Hkey Hown Hsame d'.
  assert (run (delete_api_posts_id req) d fs =
            (mkDb (users d) (delete (params_id req) (posts d)),
             Some (mkResponse 200 (JMsg "Post removed!")))) as Hrun.
  { unfold run, delete_api_posts_id, try_catch, mbind, M_bind.
    rewrite (Post_findById_found _ _ _ _ post) by done.
    replace (String.eqb (Post.user post) (req_user_id req)) with true
      by (symmetry; by apply String.eqb_eq).
    cbn [negb]. rewrite Post_remove_healthy by by apply healthy_tail.
    by rewrite Hkey. }
  subst d'. rewrite Hrun. cbn [fst posts]. split; [done|].
  apply lookup_string_Some in Hpost as (k & Hcast & Hk).
  rewrite (delete_string_cast _ _ k) by done. split.
  - intros id Hne. rewrite Hcast in Hne.
    unfold lookup, posts_lookup_string.
    destruct (castObjectId id) as [k'|]; [|done].
    apply lookup_delete_ne. congruence.
  - unfold run, get_api_posts_id, try_catch, mbind, M_bind.
    rewrite (Post_findById_healthy _ k) by (done || by rewrite Hsame).
    cbn [posts]. by rewrite lookup_delete_eq.
Qed.

Lemma delete_owner_removes_post_witness :
  run (delete_api_posts_id (post_req alice_id post1_id None None)) db0 [false; false] =
    (mkDb (users db0) (delete post1_id (posts db0)),
     Some (mkResponse 200 (JMsg "Post removed!"))).
Proof.
  pose proof (delete_owner_removes_post (post_req alice_id post1_id None None)
                (post_req bob_id post1_id None None) db0 [false; false] [] post1)
    as Hdel.
  destruct Hdel as [Hrun _].
  - reflexivity.
  - reflexivity.
  - reflexivity.
  - reflexivity.
  - reflexivity.
  - reflexivity.
  - exact Hrun.
Defined.

(** ** What the post handlers can do to the store *)

(** [PUT]: either nothing changes, or the post found under the route's
    identifier is written back with the title and body of [put_result]. *)
Lemma put_run_cases (req : Req) (d : Db) (fs : list bool) :
  (run (put_api_posts_id req) d fs).1 = d
  ∨ ∃ post, posts d !! params_id req = Some post
      ∧ (run (put_api_posts_id req) d fs).1 =
          mkDb (users d) (<[Post._id post := put_result req post]> (posts d)).
Proof.
  unfold run, put_api_posts_id, try_catch, mbind, M_bind, Post_findById.
  destruct (castObjectId (params_id req)) as [k|] eqn:Hcast; [|by left].
  rewrite (lookup_string_cast _ _ k Hcast).
  unfold Post_update, mbind, M_bind, storeCall.
  destruct fs as [|[] [|[] fs]]; cbn [faults db sent get_db mret M_ret];
    try (by left).
  all: destruct (posts d !! k) as [post|] eqn:Hpost; try (by left).
  all: destruct (negb _); try (by left).
  all: right; exists post; by split.
Qed.

(** [DELETE]: either nothing changes, or the post found under the route's
    identifier is removed. *)
Lemma delete_run_cases (req : Req) (d : Db) (fs : list bool) :
  (run (delete_api_posts_id req) d fs).1 = d
  ∨ ∃ post, posts d !! params_id req = Some post
      ∧ (run (delete_api_posts_id req) d fs).1 =
          mkDb (users d) (delete (Post._id post) (posts d)).
Proof.
  unfold run, delete_api_posts_id, try_catch, mbind, M_bind, Post_findById.
  destruct (castObjectId (params_id req)) as [k|] eqn:Hcast; [|by left].
  rewrite (lookup_string_cast _ _ k Hcast).
  unfold Post_remove, mbind, M_bind, storeCall.
  destruct fs as [|[] [|[] fs]]; cbn [faults db sent get_db mret M_ret];
    try (by left).
  all: destruct (posts d !! k) as [post|] eqn:Hpost; try (by left).
  all: destruct (negb _); try (by left).
  all: right; exists post; by split.
Qed.

(** [POST /api/posts]: either nothing changes, or one post is added under
    the new identifier, which was free. *)
Lemma create_run_cases (env : Env) (req : Req) (d : Db) (fs : list bool) :
  (run (post_api_posts env req) d fs).1 = d
  ∨ ∃ post, Post._id post = freshId env
      ∧ posts d !! freshId env = None
      ∧ (run (post_api_posts env req) d fs).1 =
          mkDb (users d) (<[freshId env := post]> (posts d)).
Proof.
  unfold run, post_api_posts.
  destruct (negb (isEmpty _)); [by left|].
  unfold try_catch, mbind, M_bind, User_findById, Post_insert, mbind, M_bind,
    storeCall.
  destruct fs as [|[] [|[] fs]]; cbn [faults db sent get_db mret M_ret];
    try (by left).
  all: destruct (List.find _ (users d)) as [u|]; try (by left).
  all: destruct (body_title req) as [title|]; try (by left).
  all: destruct (body_body req) as [body|]; try (by left).
  all: cbn [faults db sent get_db mret M_ret Post._id].
  all: rewrite (lookup_string_cast _ _ _ (castObjectId_toString (freshId env))).
  all: rewrite (insert_string_cast _ _ _ _ (castObjectId_toString (freshId env))).
  all: destruct (posts d !! freshId env) eqn:Hfresh; try (by left).
  all: right; eexists; split; [|split; [done|reflexivity]]; done.
Qed.

Lemma well_keyed_db0 : well_keyed db0.
Proof.
  intros id p.
  change (posts db0) with
    (<[(exist _ post1_id I : ObjectId) := post1]>
       (<[(exist _ post0_id I : ObjectId) := post0]>
          (∅ : gmap ObjectId Post.t))).
  rewrite !lookup_insert. repeat case_decide; subst; try done.
  - by intros [= <-].
  - by intros [= <-].
Qed.

(** X6. Whatever the request and whichever store calls reject,
    [PUT /api/posts/:id] on a store whose posts are under their own
    identifiers neither adds nor removes a post and never changes the
    identifier, the owning user or the date of one; the users are
    untouched. *)
Theorem put_keeps_owner_and_date (req : Req) (d : Db) (fs : list bool)
    (id : string) :
  well_keyed d →
  let d' := (run (put_api_posts_id req) d fs).1 in
  users d' = users d
  ∧ Post._id <$> posts d' !! id = Post._id <$> posts d !! id
  ∧ Post.user <$> posts d' !! id = Post.user <$> posts d !! id
  ∧ Post.date <$> posts d' !! id = Post.date <$> posts d !! id.
Proof.
  intros Hkeys d'. subst d'.
  destruct (put_run_cases req d fs) as [->|(post & Hpost & ->)]; [done|].
  cbn [users posts]. split; [done|].
  apply lookup_string_Some in Hpost as (k & Hcast & Hk).
  rewrite (Hkeys _ _ Hk).
  rewrite (insert_string_cast _ _ k) by apply castObjectId_toString.
  unfold lookup, posts_lookup_string.
  destruct (castObjectId id) as [k'|]; [|done].
  rewrite lookup_insert.
  case_decide; [subst k'; by rewrite Hk | done].
Qed.

Lemma put_keeps_owner_and_date_witness :
  Post.user <$>
    posts (run (put_api_posts_id (post_req alice_id post1_id (Some "T") (Some "B")))
             db0 []).1 !! post1_id = Some alice_id.
Proof.
  destruct (put_keeps_owner_and_date
              (post_req alice_id post1_id (Some "T") (Some "B")) db0 [] post1_id
              well_keyed_db0) as (_ & _ & Huser & _).
  rewrite Huser. reflexivity.
Defined.

(** X7. An owner's [PUT] whose [title] is missing or empty changes nothing,
    whatever [body] it carries: the store is what it was (and no response is
    sent). *)
Theorem put_without_title_changes_nothing (req : Req) (d : Db)
    (fs : list bool) (post : Post.t) :
  healthy fs = true →
  posts d !! params_id req = Some post →
  Post._id post = params_id req →
  Post.user post = req_user_id req →
  body_title req = None ∨ body_title req = Some "" →
  run (put_api_posts_id req) d fs = (d, None).
Proof.
  intros Hfs Hpost Hkey Hown Htitle.
  rewrite (put_owner_run req d fs post) by done.
  assert (put_result req post = post) as ->.
  { unfold put_result. destruct Htitle as [-> | ->]; by destruct post. }
  apply lookup_string_Some in Hpost as (k & Hcast & Hk).
  rewrite Hkey, (insert_string_cast _ _ k), insert_id by done.
  by destruct d.
Qed.

Lemma put_without_title_changes_nothing_witness :
  run (put_api_posts_id (post_req alice_id post1_id None (Some "New body"))) db0
    [false; false] = (db0, None).
Proof.
  apply (put_without_title_changes_nothing
           (post_req alice_id post1_id None (Some "New body")) db0 [false; false]
           post1).
  - reflexivity.
  - reflexivity.
  - reflexivity.
  - reflexivity.
  - left. reflexivity.
Defined.

(** ** Creating and reading back *)

Lemma find_by_id_unknown (us : list User.t) (id : string) :
  (∀ u, In u us → User._id u ≠ id) →
  List.find (λ v, String.eqb (User._id v) id) us = None.
Proof.
  intros Hnone.
  destruct (List.find _ us) as [u'|] eqn:Hfind; [|done].
  apply find_some in Hfind as [Hin Heq]. apply String.eqb_eq in Heq.
  by destruct (Hnone u' Hin).
Qed.

(** X8. A valid [POST /api/posts] whose authenticated id is that of no
    stored user is answered 500 with "Server error" and stores nothing,
    whichever store calls reject: the handler reads [user.id] of the [null]
    that the lookup returned. *)
Theorem create_post_unknown_user_500 (env : Env) (req : Req) (d : Db)
    (fs : list bool) :
  chain_notEmpty (body_title req) = true →
  chain_notEmpty (body_body req) = true →
  (∀ u, In u (users d) → User._id u ≠ req_user_id req) →
  run (post_api_posts env req) d fs = (d, Some server_error).
Proof.
  intros Htitle Hbody Hunknown.
  unfold run, post_api_posts, check.
  rewrite Htitle, Hbody. cbn [app isEmpty negb].
  unfold try_catch, mbind, M_bind, User_findById, mbind, M_bind, storeCall.
  destruct fs as [|[] fs]; cbn [faults db sent get_db mret M_ret];
    [|reflexivity|].
  all: by rewrite find_by_id_unknown.
Qed.

Lemma create_post_unknown_user_500_witness :
  run (post_api_posts env0 (post_req absent_id "" (Some "Hi") (Some "World")))
    db0 [] = (db0, Some server_error).
Proof.
  apply (create_post_unknown_user_500 env0
           (post_req absent_id "" (Some "Hi") (Some "World")) db0 []).
  - reflexivity.
  - reflexivity.
  - intros u [<-|[<-|[]]]; discriminate.
Defined.

(** The successful run of [POST /api/posts]. *)
Lemma create_post_run (env : Env) (req : Req) (d : Db) (fs : list bool)
    (u : User.t) (title body : string) :
  healthy fs = true →
  In u (users d) →
  req_user_id req = User._id u →
  body_title req = Some title → title ≠ "" →
  body_body req = Some body → body ≠ "" →
  posts d !! freshId env = None →
  run (post_api_posts env req) d fs =
    (mkDb (users d)
       (<[freshId env :=
            Post.mk (freshId env) (User._id u) body title (now env)]>
          (posts d)),
     Some (mkResponse 200
             (JPost (Post.mk (freshId env) (User._id u) body title (now env))))).
Proof.
  intros Hfs Hin Hid Htitle Ht Hbody Hb Hfresh.
  unfold run, post_api_posts, check.
  rewrite Htitle, Hbody, !chain_notEmpty_Some by done. cbn [app isEmpty negb].
  unfold try_catch, mbind, M_bind.
  rewrite User_findById_healthy, Hid by done.
  destruct (find_by_id_stored (users d) u Hin) as (u' & -> & Hu').
  rewrite Hu'.
  rewrite (Post_insert_fresh (freshId env))
    by (by apply healthy_tail || done).
  reflexivity.
Qed.

(** In a list sorted by date descending that holds exactly the stored
    posts, a post stored under [id] and later than every post stored under
    another identifier comes first. *)
Lemma newest_stored_is_head (d : Db) (id : ObjectId) (p : Post.t) :
  posts d !! id = Some p →
  (∀ id' q, posts d !! id' = Some q → id' ≠ id → Post.date q < Post.date p) →
  head (Post_find_sort d) = Some p.
Proof.
  intros Hp Hnewest.
  assert (p ∈ Post_find_sort d) as Hin
    by (apply Post_find_sort_stored; eauto).
  pose proof (Post_find_sort_sorted d) as Hsorted.
  pose proof (Post_find_sort_stored d) as Hstored.
  destruct (Post_find_sort d) as [|x l]; [by apply elem_of_nil in Hin|].
  cbn. f_equal.
  apply elem_of_cons in Hin as [->|Hin]; [done|].
  destruct (Hstored x) as [[id' Hx] _]; [left|].
  destruct (decide (id' = id)) as [->|Hne]; [congruence|].
  specialize (Hnewest id' x Hx Hne).
  apply StronglySorted_inv in Hsorted as [_ Hall].
  rewrite Forall_forall in Hall. specialize (Hall p Hin).
  unfold date_desc in Hall. lia.
Qed.

(** X9. After a successful [POST /api/posts], with the store answering, a
    [GET /api/posts/:id] for the new identifier answers 200 with the created
    post, and when every post stored before is older than the clock of the
    creation, [GET /api/posts] answers with an array that starts with the
    created post. *)
Theorem create_then_read_back (env : Env) (req req1 req2 : Req) (d : Db)
    (fs fs1 fs2 : list bool) (u : User.t) (title body : string) :
  healthy fs = true → healthy fs1 = true → healthy fs2 = true →
  In u (users d) →
  req_user_id req = User._id u →
  body_title req = Some title → title ≠ "" →
  body_body req = Some body → body ≠ "" →
  posts d !! freshId env = None →
  params_id req1 = freshId env →
  let post := Post.mk (freshId env) (User._id u) body title (now env) in
  let d' := (run (post_api_posts env req) d fs).1 in
  run (get_api_posts_id req1) d' fs1 = (d', Some (mkResponse 200 (JPost post)))
  ∧ ((∀ id q, posts d !! id = Some q → Post.date q < now env) →
     ∃ older,
       run (get_api_posts req2) d' fs2 =
         (d', Some (mkResponse 200 (JPosts (post :: older))))).
Proof.
  intros Hfs Hfs1 Hfs2 Hin Hid Htitle Ht Hbody Hb Hfresh Hreq1 post d'.
  subst d'. rewrite (create_post_run env req d fs u title body) by done.
  fold post. cbn [fst]. split.
  - unfold run, get_api_posts_id, try_catch, mbind, M_bind.
    rewrite (Post_findById_healthy _ (freshId env))
      by (done || rewrite Hreq1; apply castObjectId_toString).
    cbn [posts]. by rewrite lookup_insert_eq.
  - intros Holder.
    unfold run, get_api_posts, try_catch, mbind, M_bind.
    rewrite Post_find_healthy by done.
    set (d' := mkDb (users d) (<[freshId env := post]> (posts d))).
    assert (head (Post_find_sort d') = Some post) as Hhead.
    { apply (newest_stored_is_head d' (freshId env)).
      - cbn. apply lookup_insert_eq.
      - intros id' q Hq Hne. cbn in Hq.
        rewrite lookup_insert_ne in Hq by done.
        cbn. by apply (Holder id'). }
    destruct (Post_find_sort d') as [|x older]; [done|].
    injection Hhead as ->. by exists older.
Qed.

Lemma create_then_read_back_witness :
  let post := Post.mk next_post_id alice_id "World" "Hi" 1572566400123 in
  let d' := (run (post_api_posts env0
                    (post_req alice_id "" (Some "Hi") (Some "World"))) db0 []).1 in
  run (get_api_posts_id (post_req bob_id next_post_id None None)) d' [] =
    (d', Some (mkResponse 200 (JPost post))).
Proof.
  intros post d'.
  pose proof (create_then_read_back env0
                (post_req alice_id "" (Some "Hi") (Some "World"))
                (post_req bob_id next_post_id None None) (post_req bob_id "" None None)
                db0 [] [] [] alice "Hi" "World") as Hread.
  destruct Hread as [Hget _].
  - reflexivity.
  - reflexivity.
  - reflexivity.
  - simpl. left. reflexivity.
  - reflexivity.
  - reflexivity.
  - discriminate.
  - reflexivity.
  - discriminate.
  - reflexivity.
  - reflexivity.
  - exact Hget.
Defined.

(** ** Login and registration *)

Lemma returnToken_session `{Libs} (env : Env) (u : User.t) (s : St) :
  returnToken env u s =
    (Val (),
     mkSt (db s) (Some (mkResponse 200 (JToken (session_token env u))))
       (faults s)).
Proof. apply returnToken_sends. Qed.

Lemma find_by_email_unique (us : list User.t) (u : User.t) :
  In u us →
  (∀ v, In v us → User.email v = User.email u → v = u) →
  List.find (λ v, String.eqb (User.email v) (User.email u)) us = Some u.
Proof.
  intros Hin Huniq.
  destruct (find_by_email_stored us u Hin) as (u' & -> & Hin' & Heq).
  f_equal. by apply Huniq.
Qed.

(** The successful run of [POST /api/login]. *)
Lemma login_run_ok `{Libs} (env : Env) (req : Req) (d : Db)
    (fs : list bool) (u : User.t) (pw : string) :
  healthy fs = true →
  chain_isEmail (body_email req) = true →
  body_email req = Some (User.email u) →
  body_password req = Some (JStr pw) →
  In u (users d) →
  (∀ v, In v (users d) → User.email v = User.email u → v = u) →
  bcrypt_compare pw (User.password u) = true →
  run (post_api_login env req) d fs =
    (d, Some (mkResponse 200 (JToken (session_token env u)))).
Proof.
  intros Hfs Hvalid Hemail Hpw Hin Huniq Hmatch.
  unfold run, post_api_login, check.
  rewrite Hvalid, Hemail, Hpw. cbn [chain_exists app isEmpty negb].
  unfold try_catch, mbind, M_bind.
  rewrite User_findOne_email_healthy by done.
  rewrite find_by_email_unique, Hmatch by done. cbn [negb].
  by rewrite returnToken_session.
Qed.

(** X10. A login that passes the validation, with the store answering, for
    the email of a stored user (the only one with that email) and a
    password that [bcrypt.compare] accepts against the stored hash, is
    answered 200 with the session token of that user; the store is what it
    was. *)
Theorem login_success_token `{Libs} (env : Env) (req : Req) (d : Db)
    (fs : list bool) (u : User.t) (pw : string) :
  healthy fs = true →
  chain_isEmail (body_email req) = true →
  body_email req = Some (User.email u) →
  body_password req = Some (JStr pw) →
  In u (users d) →
  (∀ v, In v (users d) → User.email v = User.email u → v = u) →
  bcrypt_compare pw (User.password u) = true →
  run (post_api_login env req) d fs =
    (d, Some (mkResponse 200 (JToken (session_token env u)))).
Proof. apply login_run_ok. Qed.

Lemma login_success_token_witness :
  run (post_api_login (H := sampleLibs) env0 login_alice) db0 [false] =
    (db0,
     Some (mkResponse 200
             (JToken (session_token (H := sampleLibs) env0 alice)))).
Proof.
  apply (login_success_token (H := sampleLibs) env0 login_alice db0 [false]
           alice "secret1").
  - reflexivity.
  - reflexivity.
  - reflexivity.
  - reflexivity.
  - simpl. left. reflexivity.
  - intros v [<-|[<-|[]]]; [reflexivity | discriminate].
  - reflexivity.
Defined.

Lemma User_insert_healthy (u : User.t) d r fs :
  healthy fs = true →
  (∀ v, In v (users d) → User._id v ≠ User._id u) →
  User_insert u (mkSt d r fs) =
    (Val (), mkSt (mkDb (users d ++ [u]) (posts d)) r (tail fs)).
Proof.
  intros Hfs Hfresh. unfold User_insert, mbind, M_bind.
  rewrite storeCall_healthy by done. cbn [get_db db].
  by rewrite find_by_id_unknown.
Qed.

(** The successful run of [POST /api/users]. *)
Lemma register_run_ok `{Libs} (env : Env) (req : Req) (d : Db)
    (fs : list bool) (name email pw : string) :
  healthy fs = true →
  body_name req = Some name → name ≠ "" →
  body_email req = Some email → isEmail email = true →
  body_password req = Some (JStr pw) → (6 ≤ String.length pw)%nat →
  (∀ v, In v (users d) → User.email v ≠ email) →
  (∀ v, In v (users d) → User._id v ≠ freshId env) →
  run (post_api_users env req) d fs =
    (mkDb (users d ++ [new_user env name email pw]) (posts d),
     Some (mkResponse 200
             (JToken (session_token env (new_user env name email pw))))).
Proof.
  intros Hfs Hname Hn Hemail He Hpw Hlen Hnew Hfresh.
  unfold run, post_api_users, check, chain_isEmail, chain_isLength_min.
  rewrite Hname, Hemail, Hpw, chain_notEmpty_Some by done.
  cbn [toString toString_json shown_of from_option id]. rewrite He.
  replace (6 <=? String.length pw)%nat with true
    by (symmetry; by apply Nat.leb_le).
  cbn [app isEmpty negb].
  unfold try_catch, mbind, M_bind.
  rewrite User_findOne_email_healthy by done.
  rewrite find_by_email_unknown by done.
  fold (new_user env name email pw).
  rewrite User_insert_healthy by (by apply healthy_tail || done).
  by rewrite returnToken_session.
Qed.

(** X11. A registration that passes the validation, with the store
    answering, for an email that no stored user has and with an unused new
    identifier, appends one user document (the given name and email, the
    password as [bcrypt.hash] returns it for the salt) to the users, leaves
    the posts alone, and is answered 200 with the session token of the new
    user. *)
Theorem register_success `{Libs} (env : Env) (req : Req) (d : Db)
    (fs : list bool) (name email pw : string) :
  healthy fs = true →
  body_name req = Some name → name ≠ "" →
  body_email req = Some email → isEmail email = true →
  body_password req = Some (JStr pw) → (6 ≤ String.length pw)%nat →
  (∀ v, In v (users d) → User.email v ≠ email) →
  (∀ v, In v (users d) → User._id v ≠ freshId env) →
  run (post_api_users env req) d fs =
    (mkDb (users d ++ [new_user env name email pw]) (posts d),
     Some (mkResponse 200
             (JToken (session_token env (new_user env name email pw))))).
Proof. apply register_run_ok. Qed.

Lemma register_success_witness :
  run (post_api_users (H := sampleLibs) env1 register_carol) db0
    [false; false] =
    (mkDb [alice; bob; User.mk next_user_id "carol" "carol@example.com" "saltsecret3"]
       (posts db0),
     Some (mkResponse 200
             (JToken (mkToken (mkClaims next_user_id 1572566400 1572602400)
                        ("s3cret." ++ next_user_id))))).
Proof.
  rewrite (register_success (H := sampleLibs) env1 register_carol db0
             [false; false] "carol" "carol@example.com" "secret3").
  - reflexivity.
  - reflexivity.
  - reflexivity.
  - discriminate.
  - reflexivity.
  - reflexivity.
  - reflexivity.
  - simpl. lia.
  - intros v [<-|[<-|[]]]; discriminate.
  - intros v [<-|[<-|[]]]; discriminate.
Defined.

(** X12. Registration then login.  After a successful registration, a
    login with the same email and password (the store answering, at any
    clock) is answered 200 with the session token of the registered user,
    provided [bcrypt.compare] accepts the password against the hash that
    [bcrypt.hash] made of it. *)
Theorem register_then_login `{Libs} (env env' : Env) (req req' : Req)
    (d : Db) (fs fs' : list bool) (name email pw : string) :
  healthy fs = true → healthy fs' = true →
  body_name req = Some name → name ≠ "" →
  body_email req = Some email → isEmail email = true →
  body_password req = Some (JStr pw) → (6 ≤ String.length pw)%nat →
  (∀ v, In v (users d) → User.email v ≠ email) →
  (∀ v, In v (users d) → User._id v ≠ freshId env) →
  body_email req' = Some email →
  body_password req' = Some (JStr pw) →
  bcrypt_compare pw (bcrypt_hash pw (salt env)) = true →
  let d' := (run (post_api_users env req) d fs).1 in
  run (post_api_login env' req') d' fs' =
    (d', Some (mkResponse 200
                 (JToken (session_token env' (new_user env name email pw))))).
Proof.
  intros Hfs Hfs' Hname Hn Hemail He Hpw Hlen Hnew Hfresh Hemail' Hpw' Hmatch d'.
  subst d'.
  rewrite (register_run_ok env req d fs name email pw) by done.
  cbn [fst].
  apply (login_run_ok env' req' _ fs' (new_user env name email pw) pw);
    try done.
  - unfold chain_isEmail. by rewrite Hemail'.
  - cbn [users]. apply in_or_app. right. by left.
  - cbn [users]. intros v [Hv|[<-|[]]]%in_app_or Heq; [|done].
    by destruct (Hnew v Hv).
Qed.

Lemma register_then_login_witness :
  let d' := (run (post_api_users (H := sampleLibs) env1 register_carol)
               db0 []).1 in
  run (post_api_login (H := sampleLibs) env0
         (user_req None (Some "carol@example.com") (Some "secret3"))) d' [] =
    (d', Some (mkResponse 200
                 (JToken (mkToken (mkClaims next_user_id 1572566400 1572602400)
                            ("s3cret." ++ next_user_id))))).
Proof.
  intros d'.
  pose proof (register_then_login (H := sampleLibs) env1 env0 register_carol
                (user_req None (Some "carol@example.com") (Some "secret3"))
                db0 [] [] "carol" "carol@example.com" "secret3") as Hlogin.
  cbv zeta in Hlogin. subst d'. rewrite Hlogin.
  - reflexivity.
  - reflexivity.
  - reflexivity.
  - reflexivity.
  - discriminate.
  - reflexivity.
  - reflexivity.
  - reflexivity.
  - simpl. lia.
  - intros v [<-|[<-|[]]]; discriminate.
  - intros v [<-|[<-|[]]]; discriminate.
  - reflexivity.
  - reflexivity.
  - reflexivity.
Defined.

(** [POST /api/users]: either nothing changes, or one user is appended
    whose email no stored user had and whose identifier was free. *)
Lemma register_run_cases `{Libs} (env : Env) (req : Req) (d : Db)
    (fs : list bool) :
  (run (post_api_users env req) d fs).1 = d
  ∨ ∃ u, (∀ v, In v (users d) → User.email v ≠ User.email u)
      ∧ (∀ v, In v (users d) → User._id v ≠ User._id u)
      ∧ body_email req = Some (User.email u)
      ∧ (run (post_api_users env req) d fs).1 =
          mkDb (users d ++ [u]) (posts d).
Proof.
  unfold run, post_api_users.
  destruct (negb (isEmpty _)); [by left|].
  unfold try_catch, mbind, M_bind, User_findOne_email, User_insert, mbind,
    M_bind, storeCall.
  destruct fs as [|[] [|[] fs]]; cbn [faults db sent get_db mret M_ret];
    try (by left).
  all: destruct (body_email req) as [e|];
       destruct (body_password req) as [[pw|?]|];
       destruct (body_name req) as [n|]; try (by left).
  all: destruct (List.find (λ u, String.eqb (User.email u) e) (users d))
         eqn:Hemail; try (by left).
  all: cbn [faults db sent get_db mret M_ret User._id].
  all: destruct (List.find (λ v, String.eqb (User._id v) (freshId env))
                   (users d)) eqn:Hid; try (by left).
  all: right; exists (User.mk (freshId env) n e (bcrypt_hash pw (salt env))).
  all: cbn [User.email User._id put_db db sent faults];
       rewrite returnToken_sends.
  all: split; [|split; [|done]].
  all: intros v Hv Heq.
  all: try (apply (find_none _ _ Hemail) in Hv;
            by rewrite Heq, String.eqb_refl in Hv).
  all: apply (find_none _ _ Hid) in Hv;
       by rewrite Heq, String.eqb_refl in Hv.
Qed.

(** X13. Registration keeps the users' emails pairwise distinct and their
    identifiers pairwise distinct, and never touches the posts, whatever
    the request and whichever store calls reject. *)
Theorem register_keeps_users_unique `{Libs} (env : Env) (req : Req) (d : Db)
    (fs : list bool) :
  NoDup (User.email <$> users d) →
  NoDup (User._id <$> users d) →
  let d' := (run (post_api_users env req) d fs).1 in
  NoDup (User.email <$> users d')
  ∧ NoDup (User._id <$> users d')
  ∧ posts d' = posts d.
Proof.
  intros Hemails Hids d'. subst d'.
  destruct (register_run_cases env req d fs)
    as [->|(u & Hemail & Hid & _ & ->)]; [done|].
  cbn [users posts]. rewrite !fmap_app. cbn [fmap list_fmap].
  split; [|split; [|done]].
  - apply NoDup_app. split; [done|]. split; [|apply NoDup_singleton].
    intros e [v [He Hv]]%list_elem_of_fmap Hu%list_elem_of_singleton.
    apply list_elem_of_In in Hv. apply (Hemail v Hv). congruence.
  - apply NoDup_app. split; [done|]. split; [|apply NoDup_singleton].
    intros i [v [Hi Hv]]%list_elem_of_fmap Hu%list_elem_of_singleton.
    apply list_elem_of_In in Hv. apply (Hid v Hv). congruence.
Qed.

Lemma register_keeps_users_unique_witness :
  NoDup (User.email <$>
           users (run (post_api_users (H := sampleLibs) env1 register_carol)
                    db0 []).1).
Proof.
  destruct (register_keeps_users_unique (H := sampleLibs) env1 register_carol
              db0 []) as [Hemails _].
  - compute_done.
  - compute_done.
  - exact Hemails.
Defined.

(** ** What the handlers never do *)

Lemma login_store_unchanged `{Libs} (env : Env) (req : Req) (d : Db)
    (fs : list bool) :
  (run (post_api_login env req) d fs).1 = d.
Proof.
  unfold run, post_api_login.
  destruct (negb (isEmpty _)); [done|].
  unfold try_catch, mbind, M_bind, User_findOne_email, mbind, M_bind, storeCall.
  destruct fs as [|[] fs]; cbn [faults db sent get_db mret M_ret]; [|done|].
  all: destruct (match body_email req with Some _ => _ | None => _ end);
    [|done].
  all: destruct (body_password req) as [[pw|?]|]; [|done|done].
  all: destruct (negb _); [done|].
  all: by rewrite returnToken_sends.
Qed.

(** X14. The reading handlers ([GET /api/posts], [GET /api/posts/:id],
    [GET /api/auth]) and the login never change the store, and the handlers
    that write posts never change the users, whatever the request and
    whichever store calls reject. *)
Theorem handlers_leave_the_rest `{Libs} (env : Env) (req : Req) (d : Db)
    (fs : list bool) :
  (run (get_api_posts req) d fs).1 = d
  ∧ (run (get_api_posts_id req) d fs).1 = d
  ∧ (get_api_auth req d fs).1 = d
  ∧ (run (post_api_login env req) d fs).1 = d
  ∧ users (run (post_api_posts env req) d fs).1 = users d
  ∧ users (run (put_api_posts_id req) d fs).1 = users d
  ∧ users (run (delete_api_posts_id req) d fs).1 = users d.
Proof.
  split; [|split; [|split; [|split; [|split; [|split]]]]].
  - by destruct fs as [|[] fs].
  - unfold run, get_api_posts_id, try_catch, mbind, M_bind, Post_findById.
    destruct (castObjectId (params_id req)) as [k|]; [|done].
    unfold mbind, M_bind, storeCall.
    destruct fs as [|[] fs]; cbn [faults db sent get_db mret M_ret]; [|done|].
    all: by destruct (posts d !! k).
  - by destruct fs as [|[] fs].
  - apply login_store_unchanged.
  - by destruct (create_run_cases env req d fs) as [->|(? & _ & _ & ->)].
  - by destruct (put_run_cases req d fs) as [->|(? & _ & ->)].
  - by destruct (delete_run_cases req d fs) as [->|(? & _ & ->)].
Qed.

(** ** Requests stopped by the validation *)

(** X15. A login whose email is not well-formed or whose password is
    missing is answered 422 with a non-empty array of validation errors; the
    store is neither consulted nor changed, so the answer is the same
    whichever store calls would reject. *)
Theorem login_invalid_422 `{Libs} (env : Env) (req : Req) (d : Db) :
  chain_isEmail (body_email req) = false
  ∨ chain_exists (body_password req) = false →
  ∃ errors, errors ≠ [] ∧
    ∀ fs', run (post_api_login env req) d fs' =
             (d, Some (mkResponse 422 (JErrors errors))).
Proof.
  intros Hbad. unfold run, post_api_login.
  set (errors := (check _ _ _ _ (body_email req) ++ check _ _ _ _ _)%list).
  assert (errors ≠ []) as Hne.
  { unfold errors, check.
    destruct Hbad as [-> | ->]; [done|].
    by destruct (chain_isEmail (body_email req)). }
  exists errors. split; [done|]. intros fs'.
  by destruct errors.
Qed.

Lemma login_invalid_422_witness :
  ∃ errors, errors ≠ [] ∧
    ∀ fs', run (post_api_login (H := sampleLibs) env0 login_nobody) db0 fs' =
             (db0, Some (mkResponse 422 (JErrors errors))).
Proof.
  apply (login_invalid_422 (H := sampleLibs) env0 login_nobody db0).
  left. reflexivity.
Defined.

(** X16. A registration whose name is empty or missing, whose email is not
    well-formed or whose password has fewer than six characters is answered
    422 with a non-empty array of validation errors, whichever store calls
    would reject, and no user is stored. *)
Theorem register_invalid_422 `{Libs} (env : Env) (req : Req) (d : Db) :
  chain_notEmpty (body_name req) = false
  ∨ chain_isEmail (body_email req) = false
  ∨ chain_isLength_min 6 (body_password req) = false →
  ∃ errors, errors ≠ [] ∧
    ∀ fs', run (post_api_users env req) d fs' =
             (d, Some (mkResponse 422 (JErrors errors))).
Proof.
  intros Hbad. unfold run, post_api_users.
  set (errors := (check _ _ _ _ (body_name req) ++ _)%list).
  assert (errors ≠ []) as Hne.
  { unfold errors, check.
    destruct Hbad as [-> | [-> | ->]]; [done| |].
    - by destruct (chain_notEmpty (body_name req)).
    - by destruct (chain_notEmpty (body_name req)),
           (chain_isEmail (body_email req)). }
  exists errors. split; [done|]. intros fs'.
  by destruct errors.
Qed.

Lemma register_invalid_422_witness :
  ∃ errors, errors ≠ [] ∧
    ∀ fs', run (post_api_users (H := sampleLibs) env0 register_alice_again)
             db0 fs' = (db0, Some (mkResponse 422 (JErrors errors))).
Proof.
  apply (register_invalid_422 (H := sampleLibs) env0 register_alice_again
           db0).
  right. right. reflexivity.
Defined.

(** ** Answering *)

(** X17. Every handler but the one of [PUT /api/posts/:id] sends a response,
    whatever the request, the store and the store calls that reject. *)
Theorem handlers_always_answer `{Libs} (env : Env) (req : Req) (d : Db)
    (fs : list bool) :
  is_Some (run (get_api_posts req) d fs).2
  ∧ is_Some (run (get_api_posts_id req) d fs).2
  ∧ is_Some (run (delete_api_posts_id req) d fs).2
  ∧ is_Some (run (post_api_posts env req) d fs).2
  ∧ is_Some (run (post_api_login env req) d fs).2
  ∧ is_Some (run (post_api_users env req) d fs).2.
Proof.
  split; [|split; [|split; [|split; [|split]]]].
  - by destruct fs as [|[] fs].
  - unfold run, get_api_posts_id, try_catch, mbind, M_bind, Post_findById.
    destruct (castObjectId (params_id req)) as [k|]; [|done].
    unfold mbind, M_bind, storeCall.
    destruct fs as [|[] fs]; cbn [faults db sent get_db mret M_ret]; [|done|].
    all: by destruct (posts d !! k).
  - unfold run, delete_api_posts_id, try_catch, mbind, M_bind, Post_findById.
    destruct (castObjectId (params_id req)) as [k|]; [|done].
    unfold Post_remove, mbind, M_bind, storeCall.
    destruct fs as [|[] [|[] fs]]; cbn [faults db sent get_db mret M_ret];
      try done.
    all: destruct (posts d !! k); [|done].
    all: by destruct (negb _).
  - unfold run, post_api_posts.
    destruct (negb (isEmpty _)); [done|].
    unfold try_catch, mbind, M_bind, User_findById, Post_insert, mbind, M_bind,
      storeCall.
    destruct fs as [|[] [|[] fs]]; cbn [faults db sent get_db mret M_ret];
      try done.
    all: destruct (List.find _ (users d)); [|done].
    all: destruct (body_title req); [|done].
    all: destruct (body_body req); [|done].
    all: cbn [faults db sent get_db mret M_ret Post._id].
    all: rewrite ?(lookup_string_cast _ _ _
                     (castObjectId_toString (freshId env))).
    all: by destruct (posts d !! freshId env).
  - unfold run, post_api_login.
    destruct (negb (isEmpty _)); [done|].
    unfold try_catch, mbind, M_bind, User_findOne_email, mbind, M_bind,
      storeCall.
    destruct fs as [|[] fs]; cbn [faults db sent get_db mret M_ret]; [|done|].
    all: destruct (match body_email req with Some _ => _ | None => _ end);
      [|done].
    all: destruct (body_password req) as [[pw|?]|]; [|done|done].
    all: destruct (negb _); [done|].
    all: by rewrite returnToken_sends.
  - unfold run, post_api_users.
    destruct (negb (isEmpty _)); [done|].
    unfold try_catch, mbind, M_bind, User_findOne_email, User_insert, mbind,
      M_bind, storeCall.
    destruct fs as [|[] [|[] fs]]; cbn [faults db sent get_db mret M_ret];
      try done.
    all: destruct (body_email req) as [e|];
         destruct (body_password req) as [[pw|?]|];
         destruct (body_name req) as [n|]; try done.
    all: destruct (List.find (λ u, String.eqb (User.email u) e) (users d));
      try done.
    all: cbn [faults db sent get_db mret M_ret User._id].
    all: destruct (List.find (λ v, String.eqb (User._id v) (freshId env))
                     (users d)); try done.
    all: cbn [put_db db sent faults]; by rewrite returnToken_sends.
Qed.

(** X18. [PUT /api/posts/:id] never answers with a success status: when it
    sends a response at all, the status is 404, 401 or 500. *)
Theorem put_answers_only_failures (req : Req) (d : Db) (fs : list bool)
    (r : Response) :
  (run (put_api_posts_id req) d fs).2 = Some r →
  res_status r = 404%nat ∨ res_status r = 401%nat ∨ res_status r = 500%nat.
Proof.
  unfold run, put_api_posts_id, try_catch, mbind, M_bind, Post_findById.
  destruct (castObjectId (params_id req)) as [k|];
    [|intros [= <-]; by auto].
  unfold Post_update, mbind, M_bind, storeCall.
  destruct fs as [|[] [|[] fs]]; cbn [faults db sent get_db mret M_ret].
  all: try (intros [= <-]; by auto).
  all: destruct (posts d !! k); try (intros [= <-]; by auto).
  all: destruct (negb _); try (intros [= <-]; by auto).
  all: try discriminate.
Qed.

Lemma put_answers_only_failures_witness :
  res_status (mkResponse 401 (JMsg "User not authorized!")) = 404%nat
  ∨ res_status (mkResponse 401 (JMsg "User not authorized!")) = 401%nat
  ∨ res_status (mkResponse 401 (JMsg "User not authorized!")) = 500%nat.
Proof.
  apply (put_answers_only_failures (post_req bob_id post1_id (Some "T") None) db0 []).
  reflexivity.
Defined.

(** ** The authenticated user *)

(** X19. With the store answering, [GET /api/auth] answers 200 in every
    case: with [null] when no stored user has the authenticated id, and
    otherwise with a stored user document of that id, sent whole (its
    [password] field included).  When the lookup rejects, the answer is 500
    with "Unknown server error.". *)
Theorem auth_answers_lookup (req : Req) (d : Db) (fs : list bool) :
  healthy fs = true →
  (∃ o, get_api_auth req d fs = (d, (200%nat, JUser o))
        ∧ ((∀ u, In u (users d) → User._id u ≠ req_user_id req) → o = None)
        ∧ ∀ u, In u (users d) → User._id u = req_user_id req →
               ∃ u', o = Some u' ∧ In u' (users d)
                     ∧ User._id u' = req_user_id req)
  ∧ get_api_auth req d (true :: fs) =
      (d, (500%nat, AuthText "Unknown server error.")).
Proof.
  intros Hfs. split; [|done].
  unfold get_api_auth. rewrite User_findById_healthy by done.
  eexists. split; [reflexivity|]. split.
  - intros Hnone. by apply find_by_id_unknown.
  - intros u Hin Hid.
    destruct (find_by_id_stored (users d) u Hin) as (u' & Hfind & Hu').
    rewrite Hid in Hfind. exists u'. split; [done|].
    apply find_some in Hfind as [? _]. split; [done|]. congruence.
Qed.

Lemma auth_answers_lookup_witness :
  get_api_auth (post_req alice_id "" None None) db0 [false] =
    (db0, (200%nat, JUser (Some alice)))
  ∧ get_api_auth (post_req absent_id "" None None) db0 [false] =
      (db0, (200%nat, JUser None)).
Proof.
  destruct (auth_answers_lookup (post_req alice_id "" None None) db0 [false])
    as [(o1 & Hrun1 & _) _]; [reflexivity|].
  destruct (auth_answers_lookup (post_req absent_id "" None None) db0 [false])
    as [(o2 & Hrun2 & Hnone & _) _]; [reflexivity|].
  split; reflexivity.
Defined.

(** ** Passwords that are not strings *)

(** X21. A login that passes the validation, with the store answering, for
    the email of a stored user and with a password that is present but is
    not a string (a number, [null], ...) is answered 500 with "Server
    error", because [bcrypt.compare] rejects the argument; the store is what
    it was.  (For an email that no stored user has, the same password is
    answered 400.) *)
Theorem login_non_string_password_500 `{Libs} (env : Env) (req : Req)
    (d : Db) (fs : list bool) (u : User.t) (shown : string) :
  healthy fs = true →
  chain_isEmail (body_email req) = true →
  body_email req = Some (User.email u) →
  In u (users d) →
  body_password req = Some (JOther shown) →
  run (post_api_login env req) d fs = (d, Some server_error).
Proof.
  intros Hfs Hvalid Hemail Hin Hpw.
  unfold run, post_api_login, check.
  rewrite Hvalid, Hpw. cbn [chain_exists app isEmpty negb].
  unfold try_catch, mbind, M_bind.
  rewrite Hemail, User_findOne_email_healthy by done.
  by destruct (find_by_email_stored (users d) u Hin) as (u' & -> & _).
Qed.

Lemma login_non_string_password_500_witness :
  run (post_api_login (H := sampleLibs) env0 login_alice_number) db0 [false] =
    (db0, Some server_error).
Proof.
  apply (login_non_string_password_500 (H := sampleLibs) env0
           login_alice_number db0 [false] alice "12345").
  - reflexivity.
  - reflexivity.
  - reflexivity.
  - simpl. left. reflexivity.
  - reflexivity.
Defined.

(** X22. A registration that passes the validation (the text of the
    password has six characters or more) for an email that no stored user
    has, but whose password is not a string, is answered 500 with "Server
    error", whichever store calls reject, and no user is stored:
    [bcrypt.hash] rejects the argument before [user.save()]. *)
Theorem register_non_string_password_500 `{Libs} (env : Env) (req : Req)
    (d : Db) (fs : list bool) (shown : string) :
  chain_notEmpty (body_name req) = true →
  chain_isEmail (body_email req) = true →
  chain_isLength_min 6 (body_password req) = true →
  body_password req = Some (JOther shown) →
  (∀ v, In v (users d) → Some (User.email v) ≠ body_email req) →
  run (post_api_users env req) d fs = (d, Some server_error).
Proof.
  intros Hname Hemail Hlen Hpw Hnew.
  unfold run, post_api_users, check.
  rewrite Hname, Hemail, Hlen. cbn [app isEmpty negb].
  rewrite Hpw.
  unfold try_catch, mbind, M_bind, User_findOne_email, mbind, M_bind, storeCall.
  destruct fs as [|[] fs]; cbn [faults db sent get_db mret M_ret]; [|done|].
  all: destruct (body_email req) as [e|]; [|done].
  all: rewrite find_by_email_unknown; [done|].
  all: intros v Hv Heq; apply (Hnew v Hv); by rewrite Heq.
Qed.

Lemma register_non_string_password_500_witness :
  run (post_api_users (H := sampleLibs) env1 register_carol_number) db0 [] =
    (db0, Some server_error).
Proof.
  apply (register_non_string_password_500 (H := sampleLibs) env1
           register_carol_number db0 [] "1234567").
  - reflexivity.
  - reflexivity.
  - reflexivity.
  - reflexivity.
  - intros v [<-|[<-|[]]]; discriminate.
Defined.
